(** * Return fraud detector: the scoring and explanation pipeline of [src/api/app.py]

    A shallow embedding of the inference service: the request record and its
    dictionary, the feature vectorizer [validate_features], the explainer
    [get_top_risk_factors], and the handlers [health_check],
    [score_return_request], [get_model_metrics],
    [batch_score_return_requests] and [get_feature_importance], the start-up
    loader [lifespan], and from the demo client [scripts/run_demo.py] the
    request generator and the risk level that it prints; followed by the
    properties of the specification and further properties of the code.

    Conventions of the embedding.
    - A Python [float] is an IEEE binary64 number: Rocq's primitive [float].
      Comparisons are the primitive boolean ones, so a NaN compares false
      with everything, as in Python.
    - The module-level globals [model], [feature_names],
      [feature_importance], [model_metadata] are the fields of [State]; they
      are written once at start-up and only read by the handlers, so every
      handler takes the state as an argument and returns no new state.
    - A handler either returns its response or raises; [result] carries the
      raised exception.  [try: ... except Exception as e: raise
      HTTPException(...)] is [try_except].
    - [datetime.now().isoformat()] is an input of the handler: the clock
      reading, a string.
    - The loaded model is opaque: a function from the feature array to the
      array of predictions, which may raise.
    - [np.percentile] and [float] applied to a string are library functions
      whose code is not part of the repository: they are the section
      variables [percentile] and [float_of_str].
    - The feature array holds the values of the request as they were
      appended (an [int], a [float] or a [str]); [float(value)] converts the
      value itself.  The conversion of the array to one numpy dtype, and the
      validation of requests and responses by their schemas, belong to the
      libraries at the boundary and are not modelled. *)

From Stdlib Require Import ZArith Floats Lia Bool Permutation Sorted.
From stdpp Require Import base gmap strings list pretty.

Local Open Scope string_scope.
Local Open Scope list_scope.
Local Open Scope Z_scope.

(** ** Values *)

(** The values held by [request.dict()] and by the metadata document. *)
Inductive pyval :=
| VInt (z : Z)
| VFloat (f : float)
| VStr (s : string).

(** ** Exceptions and results *)

(** [HTTPException(status_code=..., detail=...)] and every other exception.
    A detail built by an f-string [f"prefix{str(e)}"] keeps its parts: the
    prefix and the exception that was caught. *)
Inductive exn :=
| HTTPException (status_code : Z) (detail : message)
| Exception (what : string)
with message :=
| Text (s : string)
| FString (prefix : string) (cause : exn).

Inductive result (A : Type) :=
| Ok (a : A)
| Raise (e : exn).
Arguments Ok {A} a.
Arguments Raise {A} e.

(** Sequencing: an exception raised by [m] skips the rest.  With these
    instances, [x ← m; k] is stdpp's notation for [mbind (fun x => k) m]. *)
#[export] Instance result_ret : MRet result := fun A a => Ok a.
#[export] Instance result_bind : MBind result := fun A B k m =>
  match m with
  | Ok a => k a
  | Raise e => Raise e
  end.

(** [try: body except Exception as e: raise HTTPException(status_code=500,
    detail=f"{prefix}{str(e)}")]. [HTTPException] is itself an [Exception],
    so one raised inside the body is caught and wrapped too. *)
Definition try_except {A} (prefix : string) (body : result A) : result A :=
  match body with
  | Ok a => Ok a
  | Raise e => Raise (HTTPException 500 (FString prefix e))
  end.

Definition is_ok {A} (r : result A) : bool :=
  match r with Ok _ => true | Raise _ => false end.

(** ** Floats *)

(** [float(n)] for a Python [int]: the nearest binary64 number, ties to even;
    [OverflowError] when [n] is too large for a finite one. *)
Definition float_of_Z (z : Z) : float :=
  SF2Prim (binary_normalize prec emax z 0 false).

Definition float_of_int (z : Z) : result float :=
  let f := float_of_Z z in
  if PrimFloat.is_finite f then Ok f
  else Raise (Exception "OverflowError: int too large to convert to float").

(** The builtin [min(a, b)]: [b] when [b < a], else [a]. *)
Definition py_min (a b : float) : float :=
  if (b <? a)%float then b else a.

(** ** The request record *)

Record ReturnRequest := {
  user_id : string;
  order_id : string;
  user_age_days : Z;
  num_orders : Z;
  avg_order_value : float;
  device_count : Z;
  return_rate : float;
  recent_returns_30d : Z;
  recent_returns_90d : Z;
  recent_returns_365d : Z;
  order_value : float;
  item_count : Z;
  product_risk_score : float;
  shipping_method_express : Z;
  billing_shipping_mismatch : Z;
  days_to_return : Z;
  return_reason_suspicious : Z;
  refund_type_cash : Z;
  refund_type_store_credit : Z;
  is_high_value : Z;
  email_domain_risk : Z;
  hour_of_day : Z;
  is_weekend : Z
}.

(** [ge] and [le] of a [Field]. *)
Definition ge_int (lo x : Z) : bool := lo <=? x.
Definition le_int (hi x : Z) : bool := x <=? hi.
Definition ge_float (lo x : float) : bool := (lo <=? x)%float.
Definition le_float (hi x : float) : bool := (x <=? hi)%float.

(** The field constraints of [ReturnRequest]: what the boundary layer has
    checked before a handler runs. *)
Definition request_valid (r : ReturnRequest) : bool :=
  ge_int 0 (user_age_days r) && ge_int 0 (num_orders r)
  && ge_float 0 (avg_order_value r) && ge_int 1 (device_count r)
  && ge_float 0 (return_rate r) && le_float 1 (return_rate r)
  && ge_int 0 (recent_returns_30d r) && ge_int 0 (recent_returns_90d r)
  && ge_int 0 (recent_returns_365d r)
  && ge_float 0 (order_value r) && ge_int 1 (item_count r)
  && ge_float 0 (product_risk_score r) && le_float 1 (product_risk_score r)
  && ge_int 0 (shipping_method_express r) && le_int 1 (shipping_method_express r)
  && ge_int 0 (billing_shipping_mismatch r) && le_int 1 (billing_shipping_mismatch r)
  && ge_int 0 (days_to_return r)
  && ge_int 0 (return_reason_suspicious r) && le_int 1 (return_reason_suspicious r)
  && ge_int 0 (refund_type_cash r) && le_int 1 (refund_type_cash r)
  && ge_int 0 (refund_type_store_credit r) && le_int 1 (refund_type_store_credit r)
  && ge_int 0 (is_high_value r) && le_int 1 (is_high_value r)
  && ge_int 0 (email_domain_risk r) && le_int 1 (email_domain_risk r)
  && ge_int 0 (hour_of_day r) && le_int 23 (hour_of_day r)
  && ge_int 0 (is_weekend r) && le_int 1 (is_weekend r).

(** [request.dict()]: one key per field. *)
Definition dict (r : ReturnRequest) : gmap string pyval :=
  list_to_map [
    ("user_id", VStr (user_id r));
    ("order_id", VStr (order_id r));
    ("user_age_days", VInt (user_age_days r));
    ("num_orders", VInt (num_orders r));
    ("avg_order_value", VFloat (avg_order_value r));
    ("device_count", VInt (device_count r));
    ("return_rate", VFloat (return_rate r));
    ("recent_returns_30d", VInt (recent_returns_30d r));
    ("recent_returns_90d", VInt (recent_returns_90d r));
    ("recent_returns_365d", VInt (recent_returns_365d r));
    ("order_value", VFloat (order_value r));
    ("item_count", VInt (item_count r));
    ("product_risk_score", VFloat (product_risk_score r));
    ("shipping_method_express", VInt (shipping_method_express r));
    ("billing_shipping_mismatch", VInt (billing_shipping_mismatch r));
    ("days_to_return", VInt (days_to_return r));
    ("return_reason_suspicious", VInt (return_reason_suspicious r));
    ("refund_type_cash", VInt (refund_type_cash r));
    ("refund_type_store_credit", VInt (refund_type_store_credit r));
    ("is_high_value", VInt (is_high_value r));
    ("email_domain_risk", VInt (email_domain_risk r));
    ("hour_of_day", VInt (hour_of_day r));
    ("is_weekend", VInt (is_weekend r))
  ].

(** The keys of [request.dict()]. *)
Definition field_names : list string :=
  ["user_id"; "order_id"; "user_age_days"; "num_orders"; "avg_order_value";
   "device_count"; "return_rate"; "recent_returns_30d"; "recent_returns_90d";
   "recent_returns_365d"; "order_value"; "item_count"; "product_risk_score";
   "shipping_method_express"; "billing_shipping_mismatch"; "days_to_return";
   "return_reason_suspicious"; "refund_type_cash"; "refund_type_store_credit";
   "is_high_value"; "email_domain_risk"; "hour_of_day"; "is_weekend"].

(** ** The process state *)

(** A one-dimensional array of feature values, and the array of shape
    [(1, n)] that [reshape(1, -1)] makes of it.  The entries are kept as
    they were appended; numpy's choice of a common dtype is not modelled. *)
Abbreviation row := (list pyval) (only parsing).
Abbreviation ndarray := (list (list pyval)) (only parsing).

Definition reshape_1 (features : row) : ndarray := [features].

(** The loaded scorer: [model.predict]. *)
Definition Model := ndarray -> result (list float).

Record State := {
  model : option Model;
  feature_names : option (list string);
  feature_importance : option (list float);
  model_metadata : option (gmap string pyval)
}.

(** [HTTPException(status_code=500, detail="Model not loaded")]. *)
Definition model_not_loaded : exn :=
  HTTPException 500 (Text "Model not loaded").

(** ** Feature vectorizer *)

(** The body of the loop of [validate_features]. *)
Definition append_feature (request_dict : gmap string pyval)
    (features : row) (feature_name : string) : row :=
  match request_dict !! feature_name with
  | Some v => features ++ [v]
  | None => features ++ [VFloat 0]
  end.

Definition validate_features (st : State) (request : ReturnRequest)
    : result ndarray :=
  match feature_names st with
  | None => Raise model_not_loaded
  | Some names =>
      let request_dict := dict request in
      let features := fold_left (append_feature request_dict) names [] in
      Ok (reshape_1 features)
  end.

(** ** Lists as the code uses them *)

(** [l[0]]. *)
Definition index0 {A} (l : list A) : result A :=
  match l with
  | x :: _ => Ok x
  | [] => Raise (Exception "IndexError: index 0 is out of bounds")
  end.

(** [l[:n]]: the first [n] items, and all but the last [-n] when [n < 0]. *)
Definition slice_to {A} (n : Z) (l : list A) : list A :=
  if n <? 0 then firstn (Z.to_nat (Z.of_nat (length l) + n)) l
  else firstn (Z.to_nat n) l.

(** [list(zip(l1, l2, l3))]: stops with the shortest. *)
Fixpoint zip3 {A B C} (l1 : list A) (l2 : list B) (l3 : list C)
    : list (A * B * C) :=
  match l1, l2, l3 with
  | a :: l1', b :: l2', c :: l3' => (a, b, c) :: zip3 l1' l2' l3'
  | _, _, _ => []
  end.

(** [acc = []; for x in items: acc.append(body(x))], where the body may read
    what was appended so far and may raise, which ends the loop. *)
Fixpoint for_append {A B} (body : list B -> A -> result B)
    (items : list A) (acc : list B) : result (list B) :=
  match items with
  | [] => Ok acc
  | x :: rest => y ← body acc x; for_append body rest (acc ++ [y])
  end.

(** [l.sort(key=key, reverse=True)].  The sort is stable, also when reversed:
    items whose keys compare equal keep their order.  On keys that [<]
    orders totally (no NaN) this fixes the result, which the stable
    insertion below computes. *)
Section sort_desc.
Context {A : Type} (key : A -> float).

Fixpoint insert_desc (x : A) (l : list A) : list A :=
  match l with
  | [] => [x]
  | y :: l' =>
      if (key x <? key y)%float then y :: insert_desc x l' else x :: l
  end.

Definition sort_desc (l : list A) : list A := foldr insert_desc [] l.
End sort_desc.

(** ** Responses *)

Module RiskFactor.
Record t := {
  feature : string;
  value : float;
  importance : float;
  risk_level : string
}.
End RiskFactor.

Module FraudScoreResponse.
Record t := {
  risk_score : float;
  is_flagged : bool;
  confidence : float;
  top_risk_factors : list RiskFactor.t;
  timestamp : string;
  model_version : pyval
}.
End FraudScoreResponse.

Module HealthResponse.
Record t := {
  status : string;
  model_loaded : bool;
  timestamp : string
}.
End HealthResponse.

Module ModelInfo.
Record t := {
  model_type : string;
  training_date : pyval;
  feature_count : nat;
  random_state : pyval
}.
End ModelInfo.

Module MetricsResponse.
Record t := {
  model_info : ModelInfo.t;
  feature_importance : list (string * float)
}.
End MetricsResponse.

Module BatchItem.
Record t := {
  user_id : string;
  order_id : string;
  risk_score : float;
  is_flagged : bool;
  timestamp : string
}.
End BatchItem.

Module BatchResponse.
Record t := {
  results : list BatchItem.t;
  total_processed : nat;
  flagged_count : Z
}.
End BatchResponse.

Module FeatureImportanceResponse.
Record t := {
  feature_importance : list (string * float);
  total_features : nat
}.
End FeatureImportanceResponse.

(** ** Decision policy *)

Definition threshold : float := 0.5.

(** [model_metadata.get(key, 'unknown') if model_metadata else 'unknown'];
    an empty dictionary is falsy and has no key, so both branches agree on
    it. *)
Definition metadata_get (st : State) (key : string) : pyval :=
  match model_metadata st with
  | Some md => default (VStr "unknown") (md !! key)
  | None => VStr "unknown"
  end.

(** ** Health *)

Definition health_check (st : State) (now : string) : HealthResponse.t :=
  {| HealthResponse.status :=
       if model st is Some _ then "healthy" else "unhealthy";
     HealthResponse.model_loaded := if model st is Some _ then true else false;
     HealthResponse.timestamp := now |}.

(** ** Explainer and handlers *)

Section Service.
(** [float(s)] for a string: the number it spells, if it spells one. *)
Variable float_of_str : string -> option float.

(** [np.percentile(a, q)] on a one-dimensional array. *)
Variable percentile : list float -> Z -> float.

(** [float(value)] for an entry of the feature array. *)
Definition py_float (v : pyval) : result float :=
  match v with
  | VInt z => float_of_int z
  | VFloat f => Ok f
  | VStr s =>
      match float_of_str s with
      | Some f => Ok f
      | None => Raise (Exception "ValueError: could not convert string to float")
      end
  end.

(** The dictionary appended for one selected triple. *)
Definition risk_factor (feature_importance : list float)
    (x : string * pyval * float) : result RiskFactor.t :=
  let '(name, value, importance) := x in
  v ← py_float value;
  Ok {| RiskFactor.feature := name;
        RiskFactor.value := v;
        RiskFactor.importance := importance;
        RiskFactor.risk_level :=
          if (percentile feature_importance 75 <? importance)%float
          then "high" else "medium" |}.

(** [feature_names] is the global of that name, [None] until the metadata
    is loaded; [zip] raises on it. *)
Definition get_top_risk_factors (features : row)
    (feature_names : option (list string))
    (feature_importance : option (list float)) (top_n : Z)
    : result (list RiskFactor.t) :=
  match feature_importance with
  | None => Ok []
  | Some importances =>
      match feature_names with
      | None => Raise (Exception "TypeError: 'NoneType' object is not iterable")
      | Some names =>
          let feature_data := zip3 names features importances in
          let feature_data := sort_desc (fun x => x.2) feature_data in
          let top_features := slice_to top_n feature_data in
          for_append (fun _ => risk_factor importances) top_features []
      end
  end.

(** The body of the [try] of [score_return_request]. *)
Definition score_body (st : State) (m : Model) (now : string)
    (request : ReturnRequest) : result FraudScoreResponse.t :=
  features ← validate_features st request;
  predictions ← m features;
  risk_score ← index0 predictions;
  let is_flagged := (threshold <? risk_score)%float in
  let confidence := (abs (risk_score - threshold) * 2)%float in
  features_0 ← index0 features;
  top_risk_factors ←
    get_top_risk_factors features_0 (feature_names st)
      (feature_importance st) 5;
  Ok {| FraudScoreResponse.risk_score := risk_score;
        FraudScoreResponse.is_flagged := is_flagged;
        FraudScoreResponse.confidence := py_min 1 confidence;
        FraudScoreResponse.top_risk_factors := top_risk_factors;
        FraudScoreResponse.timestamp := now;
        FraudScoreResponse.model_version := metadata_get st "training_date" |}.

Definition score_return_request (st : State) (now : string)
    (request : ReturnRequest) : result FraudScoreResponse.t :=
  match model st with
  | None => Raise model_not_loaded
  | Some m => try_except "Scoring error: " (score_body st m now request)
  end.

(** [zip(feature_names, feature_importance)] as name and importance pairs,
    sorted by importance, largest first. *)
Definition ranked_importance (names : list string) (importances : list float)
    : list (string * float) :=
  sort_desc snd (zip names importances).

Definition get_model_metrics (st : State) : result MetricsResponse.t :=
  match model st with
  | None => Raise model_not_loaded
  | Some _ =>
      let model_info :=
        {| ModelInfo.model_type := "LightGBM";
           ModelInfo.training_date := metadata_get st "training_date";
           ModelInfo.feature_count :=
             match feature_names st with
             | Some ((_ :: _) as names) => length names
             | _ => 0%nat
             end;
           ModelInfo.random_state := metadata_get st "random_state" |} in
      let feature_importance_data :=
        match feature_names st, feature_importance st with
        | Some ((_ :: _) as names), Some importances =>
            ranked_importance names importances
        | _, _ => []
        end in
      Ok {| MetricsResponse.model_info := model_info;
            MetricsResponse.feature_importance := feature_importance_data |}
  end.

(** The body of the loop of [batch_score_return_requests]; [clock] gives
    the reading of [datetime.now()] for the item appended at a position. *)
Definition batch_item (st : State) (m : Model) (clock : nat -> string)
    (results : list BatchItem.t) (request : ReturnRequest)
    : result BatchItem.t :=
  features ← validate_features st request;
  predictions ← m features;
  risk_score ← index0 predictions;
  let is_flagged := (threshold <? risk_score)%float in
  Ok {| BatchItem.user_id := user_id request;
        BatchItem.order_id := order_id request;
        BatchItem.risk_score := risk_score;
        BatchItem.is_flagged := is_flagged;
        BatchItem.timestamp := clock (length results) |}.

(** [sum(1 for r in results if r['is_flagged'])]. *)
Definition count_flagged (results : list BatchItem.t) : Z :=
  fold_left (fun total r => if BatchItem.is_flagged r then total + 1 else total)
    results 0.

Definition batch_score_return_requests (st : State) (clock : nat -> string)
    (requests : list ReturnRequest) : result BatchResponse.t :=
  match model st with
  | None => Raise model_not_loaded
  | Some m =>
      try_except "Batch scoring error: " (
        results ← for_append (batch_item st m clock) requests [];
        Ok {| BatchResponse.results := results;
              BatchResponse.total_processed := length results;
              BatchResponse.flagged_count := count_flagged results |})
  end.

Definition get_feature_importance (st : State)
    : result FeatureImportanceResponse.t :=
  match model st, feature_names st, feature_importance st with
  | Some _, Some names, Some importances =>
      Ok {| FeatureImportanceResponse.feature_importance :=
              ranked_importance names importances;
            FeatureImportanceResponse.total_features := length names |}
  | _, _, _ =>
      Raise (HTTPException 500 (Text "Model or feature data not loaded"))
  end.

End Service.

(** ** Start-up *)

(** The metadata document as [json.load] returns it: its scalar entries, and
    the two list entries that the loader reads, each present or not. *)
Record MetadataDocument := {
  entries : gmap string pyval;
  feature_names_entry : option (list string);
  feature_importance_entry : option (list float)
}.

(** The globals before start-up. *)
Definition initial_state : State :=
  {| model := None; feature_names := None; feature_importance := None;
     model_metadata := None |}.

(** [lifespan], up to its [yield].  What is at a path is an input: [None]
    when [os.path.exists] says no, otherwise what loading the file gives,
    which may raise.  An exception raised at any step is caught and logged,
    and leaves the globals as the steps before it assigned them: [model]
    after [joblib.load], [model_metadata] after [json.load], [feature_names]
    and then [feature_importance] after the look-up of their keys. *)
Definition lifespan (model_file : option (result Model))
    (metadata_file : option (result MetadataDocument)) : State :=
  match model_file with
  | None => initial_state
  | Some (Raise _) => initial_state
  | Some (Ok m) =>
      match metadata_file with
      | None | Some (Raise _) =>
          {| model := Some m; feature_names := None;
             feature_importance := None; model_metadata := None |}
      | Some (Ok document) =>
          match feature_names_entry document with
          | None =>
              {| model := Some m; feature_names := None;
                 feature_importance := None;
                 model_metadata := Some (entries document) |}
          | Some names =>
              {| model := Some m; feature_names := Some names;
                 feature_importance := feature_importance_entry document;
                 model_metadata := Some (entries document) |}
          end
      end
  end.

(** ** The demo client ([scripts/run_demo.py]) *)

Module Demo.

(** The numbers that [generate_sample_request] draws, one per field, in the
    order of the fields. *)
Record Draws := {
  user_id : Z;
  order_id : Z;
  user_age_days : Z;
  num_orders : Z;
  avg_order_value : float;
  device_count : Z;
  return_rate : float;
  recent_returns_30d : Z;
  recent_returns_90d : Z;
  recent_returns_365d : Z;
  order_value : float;
  item_count : Z;
  product_risk_score : float;
  shipping_method_express : Z;
  billing_shipping_mismatch : Z;
  days_to_return : Z;
  return_reason_suspicious : Z;
  refund_type_cash : Z;
  refund_type_store_credit : Z;
  is_high_value : Z;
  email_domain_risk : Z;
  hour_of_day : Z;
  is_weekend : Z
}.

(** [random.randint(a, b)] returns an integer [a <= n <= b],
    [random.uniform(a, b)] a float [a <= x <= b], and
    [random.choice([0, 1])] one of the two. *)
Definition randint (a b n : Z) : bool := (a <=? n) && (n <=? b).
Definition uniform (a b x : float) : bool := ((a <=? x) && (x <=? b))%float.
Definition choice01 (n : Z) : bool := (n =? 0) || (n =? 1).

(** The draws are what the calls of [generate_sample_request] can return. *)
Definition drawn (d : Draws) : bool :=
  randint 100000 999999 (user_id d) && randint 100000 999999 (order_id d)
  && randint 1 1000 (user_age_days d) && randint 1 50 (num_orders d)
  && uniform 20 500 (avg_order_value d) && randint 1 5 (device_count d)
  && uniform 0 0.5 (return_rate d)
  && randint 0 10 (recent_returns_30d d) && randint 0 20 (recent_returns_90d d)
  && randint 0 50 (recent_returns_365d d)
  && uniform 10 1000 (order_value d) && randint 1 10 (item_count d)
  && uniform 0 1 (product_risk_score d)
  && choice01 (shipping_method_express d)
  && choice01 (billing_shipping_mismatch d)
  && randint 1 30 (days_to_return d)
  && choice01 (return_reason_suspicious d) && choice01 (refund_type_cash d)
  && choice01 (refund_type_store_credit d) && choice01 (is_high_value d)
  && choice01 (email_domain_risk d) && randint 0 23 (hour_of_day d)
  && choice01 (is_weekend d).

(** The dictionary that [generate_sample_request] returns for its draws;
    [pretty] writes an integer in decimal, as an f-string does. *)
Definition generate_sample_request (d : Draws) : gmap string pyval :=
  list_to_map [
    ("user_id", VStr ("user_" +:+ pretty (user_id d)));
    ("order_id", VStr ("order_" +:+ pretty (order_id d)));
    ("user_age_days", VInt (user_age_days d));
    ("num_orders", VInt (num_orders d));
    ("avg_order_value", VFloat (avg_order_value d));
    ("device_count", VInt (device_count d));
    ("return_rate", VFloat (return_rate d));
    ("recent_returns_30d", VInt (recent_returns_30d d));
    ("recent_returns_90d", VInt (recent_returns_90d d));
    ("recent_returns_365d", VInt (recent_returns_365d d));
    ("order_value", VFloat (order_value d));
    ("item_count", VInt (item_count d));
    ("product_risk_score", VFloat (product_risk_score d));
    ("shipping_method_express", VInt (shipping_method_express d));
    ("billing_shipping_mismatch", VInt (billing_shipping_mismatch d));
    ("days_to_return", VInt (days_to_return d));
    ("return_reason_suspicious", VInt (return_reason_suspicious d));
    ("refund_type_cash", VInt (refund_type_cash d));
    ("refund_type_store_credit", VInt (refund_type_store_credit d));
    ("is_high_value", VInt (is_high_value d));
    ("email_domain_risk", VInt (email_domain_risk d));
    ("hour_of_day", VInt (hour_of_day d));
    ("is_weekend", VInt (is_weekend d))
  ].

(** The risk level that [display_result] prints for a risk score: the
    [if risk_score >= 0.8 ... elif risk_score >= 0.5 ... else] of the
    function.  The literal [0.8] is the binary64 number nearest to it. *)
Definition risk_level (risk_score : float) : string :=
  if (0x1.999999999999ap-1 <=? risk_score)%float then "🔴 HIGH RISK"
  else if (0.5 <=? risk_score)%float then "🟡 MEDIUM RISK"
  else "🟢 LOW RISK".

(** The risk factors that [display_result] lists:
    [result['top_risk_factors'][:5]]. *)
Definition listed_risk_factors (resp : FraudScoreResponse.t)
    : list RiskFactor.t :=
  slice_to 5 (FraudScoreResponse.top_risk_factors resp).

End Demo.

(** * Notions of the specification *)

(** The scorer's contract: every prediction is a probability. *)
Definition model_contract (m : Model) : Prop :=
  forall (x : ndarray) (predictions : list float) (y : float),
    m x = Ok predictions -> y ∈ predictions ->
    (0 <=? y)%float = true /\ (y <=? 1)%float = true.

(** The confidence of the specification: [min(1.0, |s - 0.5| * 2)]. *)
Definition confidence_spec (s : float) : float :=
  py_min 1 (abs (s - 0.5) * 2)%float.

(** Vectorizing and scoring one request: what the single and the batch
    operation both do first. *)
Definition item_score (st : State) (m : Model) (request : ReturnRequest)
    : result float :=
  features ← validate_features st request;
  predictions ← m features;
  index0 predictions.

(** The flagged entries of a batch result. *)
Definition flagged (results : list BatchItem.t) : list BatchItem.t :=
  List.filter BatchItem.is_flagged results.

(** A model loaded without its metadata: no feature names and no
    importances. *)
Definition metadata_absent (st : State) : Prop :=
  (exists m, model st = Some m) /\ feature_names st = None /\
  feature_importance st = None.

(** ** Ranking *)

(** A vector entry that [float] converts. *)
Definition numeric (float_of_str : string -> option float) (v : pyval) : Prop :=
  is_ok (py_float float_of_str v) = true.

(** The importance at a position, as a sort key. *)
Definition importance_at (importances : list float) (i : nat) : float :=
  nth i importances 0%float.

(** Position [i] is listed before position [j] in a descending stable sort
    by [key]: its key is at least as large, and when the two keys are equal
    it is the smaller position. *)
Definition listed_before (key : nat -> float) (i j : nat) : Prop :=
  (key j <=? key i)%float = true /\
  ((key i =? key j)%float = true -> (i < j)%nat).

(** The feature at position [i] is ranked before the one at position [j]: its
    importance is at least as large, and when the two importances are equal
    it comes first in the original order. *)
Definition ranks_before (importances : list float) (i j : nat) : Prop :=
  listed_before (importance_at importances) i j.

(** The risk factor [f] describes position [i]: the name, the request's
    value and the importance at that position, and the level that the 75th
    percentile of all the importances gives it. *)
Definition describes (float_of_str : string -> option float)
    (percentile : list float -> Z -> float)
    (names : list string) (features : row) (importances : list float)
    (i : nat) (f : RiskFactor.t) : Prop :=
  names !! i = Some (RiskFactor.feature f) /\
  (exists v, features !! i = Some v /\
             py_float float_of_str v = Ok (RiskFactor.value f)) /\
  importances !! i = Some (RiskFactor.importance f) /\
  RiskFactor.risk_level f
  = (if (percentile importances 75%Z <? RiskFactor.importance f)%float
     then "high" else "medium").

(** The triple that [zip] makes at a position. *)
Definition triple_at (names : list string) (features : row)
    (importances : list float) (i : nat) : string * pyval * float :=
  (nth i names "", nth i features (VFloat 0), nth i importances 0%float).

(** The length at which [zip] stops. *)
Definition shortest (names : list string) (features : row)
    (importances : list float) : nat :=
  Nat.min (length names) (Nat.min (length features) (length importances)).

(** The positions that the explainer selects, in the order it lists them. *)
Definition top_positions (names : list string) (features : row)
    (importances : list float) (top_n : Z) : list nat :=
  firstn (Z.to_nat top_n)
    (sort_desc (importance_at importances)
       (seq 0 (shortest names features importances))).

(** ** Sample data *)

(** A scorer that returns one fixed score. *)
Definition stub_model (score : float) : Model := fun _ => Ok [score].

(** The request of the test-suite, with a return rate of one eighth. *)
Definition sample_request : ReturnRequest :=
  {| user_id := "test_user_001"; order_id := "test_order_001";
     user_age_days := 30; num_orders := 5; avg_order_value := 100;
     device_count := 1; return_rate := 0.125;
     recent_returns_30d := 0; recent_returns_90d := 1;
     recent_returns_365d := 2; order_value := 150; item_count := 2;
     product_risk_score := 0.5; shipping_method_express := 0;
     billing_shipping_mismatch := 0; days_to_return := 3;
     return_reason_suspicious := 0; refund_type_cash := 1;
     refund_type_store_credit := 0; is_high_value := 0;
     email_domain_risk := 0; hour_of_day := 14; is_weekend := 0 |}.

Definition sample_request_2 : ReturnRequest :=
  {| user_id := "test_user_002"; order_id := "test_order_002";
     user_age_days := 5; num_orders := 1; avg_order_value := 1000;
     device_count := 3; return_rate := 0.75;
     recent_returns_30d := 2; recent_returns_90d := 2;
     recent_returns_365d := 2; order_value := 1000; item_count := 1;
     product_risk_score := 0.875; shipping_method_express := 1;
     billing_shipping_mismatch := 1; days_to_return := 1;
     return_reason_suspicious := 1; refund_type_cash := 1;
     refund_type_store_credit := 0; is_high_value := 1;
     email_domain_risk := 1; hour_of_day := 3; is_weekend := 1 |}.

(** Six feature names, one of them ([account_tier]) not a field of the
    request, with importances that tie at the first and fourth position. *)
Definition sample_names : list string :=
  ["user_age_days"; "order_value"; "account_tier"; "return_rate";
   "is_weekend"; "device_count"].

Definition sample_importance : list float :=
  [4; 1; 2; 4; 0.5; 3]%float.

Definition sample_state (score : float) : State :=
  {| model := Some (stub_model score);
     feature_names := Some sample_names;
     feature_importance := Some sample_importance;
     model_metadata := Some {[ "training_date" := VStr "2024-01-01" ]} |}.

Definition state_no_model : State :=
  {| model := None; feature_names := None; feature_importance := None;
     model_metadata := None |}.

Definition state_no_metadata : State :=
  {| model := Some (stub_model 0.75); feature_names := None;
     feature_importance := None; model_metadata := None |}.

(** A scorer that raises on a vector whose first entry is the integer [5],
    and answers [0.75] on every other. *)
Definition picky_model : Model := fun x =>
  match x with
  | (VInt 5 :: _) :: _ => Raise (Exception "ValueError: bad input")
  | _ => Ok [0.75%float]
  end.

Definition picky_state : State :=
  {| model := Some picky_model;
     feature_names := Some sample_names;
     feature_importance := Some sample_importance;
     model_metadata := None |}.

Definition sample_clock (i : nat) : string :=
  if (i =? 0)%nat then "2024-01-01T00:00:00" else "2024-01-01T00:00:01".

(** The vector of the sample request for the sample names, and a shorter
    one. *)
Definition sample_features : row :=
  [VInt 30; VFloat 150; VFloat 0; VFloat 0.125; VInt 0; VInt 1].

Definition short_features : row :=
  [VInt 30; VFloat 150; VFloat 0; VFloat 0.125].

Definition sample_batch : list ReturnRequest :=
  [sample_request; sample_request_2; sample_request].

(** A state whose only feature name is an identifier of the request. *)
Definition identifier_state : State :=
  {| model := Some (stub_model 0.75);
     feature_names := Some ["user_id"];
     feature_importance := Some [1%float];
     model_metadata := None |}.

(** A metadata document with both lists, and one without importances. *)
Definition sample_document : MetadataDocument :=
  {| entries := {[ "training_date" := VStr "2024-01-01" ]};
     feature_names_entry := Some sample_names;
     feature_importance_entry := Some sample_importance |}.


(** Draws of the demo's request generator. *)
Definition sample_draws : Demo.Draws :=
  {| Demo.user_id := 123456; Demo.order_id := 654321;
     Demo.user_age_days := 1000; Demo.num_orders := 1;
     Demo.avg_order_value := 20; Demo.device_count := 5;
     Demo.return_rate := 0.5; Demo.recent_returns_30d := 10;
     Demo.recent_returns_90d := 0; Demo.recent_returns_365d := 50;
     Demo.order_value := 1000; Demo.item_count := 1;
     Demo.product_risk_score := 1; Demo.shipping_method_express := 1;
     Demo.billing_shipping_mismatch := 0; Demo.days_to_return := 30;
     Demo.return_reason_suspicious := 1; Demo.refund_type_cash := 0;
     Demo.refund_type_store_credit := 1; Demo.is_high_value := 0;
     Demo.email_domain_risk := 1; Demo.hour_of_day := 23;
     Demo.is_weekend := 0 |}.

(** The sample request under other identifiers. *)
Definition sample_request_renamed : ReturnRequest :=
  {| user_id := "test_user_009"; order_id := "test_order_009";
     user_age_days := 30; num_orders := 5; avg_order_value := 100;
     device_count := 1; return_rate := 0.125;
     recent_returns_30d := 0; recent_returns_90d := 1;
     recent_returns_365d := 2; order_value := 150; item_count := 2;
     product_risk_score := 0.5; shipping_method_express := 0;
     billing_shipping_mismatch := 0; days_to_return := 3;
     return_reason_suspicious := 0; refund_type_cash := 1;
     refund_type_store_credit := 0; is_high_value := 0;
     email_domain_risk := 0; hour_of_day := 14; is_weekend := 0 |}.

(** A string spells no number. *)
Definition no_float_of_str (s : string) : option float := None.


(** The request's value for a feature name, [0.0] when it has none. *)
Definition feature_value (request : ReturnRequest) (name : string) : pyval :=
  match dict request !! name with
  | Some v => v
  | None => VFloat 0
  end.

(** A percentile by linear interpolation between the two closest ranks of
    the sorted array, to evaluate the examples; the properties below are
    proved for every percentile function. *)
Fixpoint insert_asc (x : float) (l : list float) : list float :=
  match l with
  | [] => [x]
  | y :: l' => if (x <=? y)%float then x :: l else y :: insert_asc x l'
  end.

Definition linear_percentile (a : list float) (q : Z) : float :=
  let sorted := foldr insert_asc [] a in
  let position := (Z.of_nat (length a) - 1) * q in
  let i := Z.to_nat (position / 100) in
  let fraction := (float_of_Z (position mod 100) / 100)%float in
  let lower := nth i sorted nan in
  let upper := nth (S i) sorted lower in
  (lower + (upper - lower) * fraction)%float.

(** * Properties *)

(** ** Lists *)

Lemma lookup_map {A B} (f : A -> B) (l : list A) (i : nat) :
  map f l !! i = f <$> l !! i.
Proof.
  revert i. induction l as [|a l IH]; intros [|i]; simpl; auto.
Qed.

(** ** The result monad and the loops *)

Lemma bind_Ok {A B} (m : result A) (k : A -> result B) (b : B) :
  (x ← m; k x) = Ok b <-> exists a, m = Ok a /\ k a = Ok b.
Proof.
  destruct m as [a|e]; simpl; split.
  - intros H; exists a; auto.
  - intros (a' & Ha & Hk); congruence.
  - discriminate.
  - intros (a' & Ha & _); discriminate.
Qed.

Lemma bind_Raise {A B} (m : result A) (k : A -> result B) (e : exn) :
  (x ← m; k x) = Raise e <->
  m = Raise e \/ exists a, m = Ok a /\ k a = Raise e.
Proof.
  destruct m as [a|e']; simpl; split.
  - intros H; right; exists a; auto.
  - intros [H|(a' & Ha & Hk)]; congruence.
  - intros H; left; congruence.
  - intros [H|(a' & Ha & _)]; [congruence | discriminate].
Qed.

Lemma try_except_Ok {A} (prefix : string) (body : result A) (a : A) :
  try_except prefix body = Ok a <-> body = Ok a.
Proof. destruct body; simpl; split; congruence. Qed.


(** A loop that returns has appended one item per input, in order, each the
    value of the body on what had been appended before it. *)
Lemma for_append_Ok {A B} (body : list B -> A -> result B) (items : list A) :
  forall (acc out : list B),
    for_append body items acc = Ok out ->
    exists ys,
      out = acc ++ ys /\ length ys = length items /\
      forall (i : nat) (x : A), items !! i = Some x ->
        exists y, ys !! i = Some y /\ body (acc ++ take i ys) x = Ok y.
Proof.
  induction items as [|x items IH]; intros acc out H; simpl in H.
  - exists []. injection H as <-. rewrite app_nil_r.
    repeat split; auto. intros i x Hi. rewrite lookup_nil in Hi. discriminate.
  - apply bind_Ok in H as (y & Hy & H).
    apply IH in H as (ys & -> & Hlen & Hys).
    exists (y :: ys). rewrite <- app_assoc. simpl.
    repeat split; auto.
    intros [|i] x' Hi; simpl in Hi.
    + injection Hi as <-. exists y. rewrite app_nil_r. auto.
    + destruct (Hys i x' Hi) as (y' & Hy' & Hb).
      exists y'. split; [exact Hy'|].
      simpl. rewrite <- app_assoc in Hb. exact Hb.
Qed.

(** A loop whose body never raises returns. *)
Lemma for_append_total {A B} (body : list B -> A -> result B) (items : list A) :
  (forall acc x, x ∈ items -> exists y, body acc x = Ok y) ->
  forall acc, exists out, for_append body items acc = Ok out.
Proof.
  induction items as [|x items IH]; intros Hbody acc; simpl.
  - eauto.
  - destruct (Hbody acc x) as (y & ->); [left|]. simpl.
    apply IH. intros acc' x' Hx'. apply Hbody. now right.
Qed.

(** A loop stops at the first item on which the body raises, with that
    exception. *)
Lemma for_append_Raise {A B} (body : list B -> A -> result B)
    (pre post : list A) (x : A) (e : exn) :
  (forall acc, body acc x = Raise e) ->
  (forall acc x', x' ∈ pre -> exists y, body acc x' = Ok y) ->
  forall acc, for_append body (pre ++ x :: post) acc = Raise e.
Proof.
  intros Hx. induction pre as [|p pre IH]; intros Hpre acc; simpl.
  - rewrite Hx. reflexivity.
  - destruct (Hpre acc p) as (y & ->); [left|]. simpl.
    apply IH. intros acc' x' Hx'. apply Hpre. now right.
Qed.

(** A list with an item that fails a test splits at the first such item. *)
Lemma first_failure {A} (ok : A -> bool) (l : list A) (x : A) :
  x ∈ l -> ok x = false ->
  exists pre y post,
    l = pre ++ y :: post /\ ok y = false /\ forall z, z ∈ pre -> ok z = true.
Proof.
  induction l as [|a l IH]; intros Hin Hx.
  - inversion Hin.
  - destruct (ok a) eqn:Ha.
    + assert (Hin' : x ∈ l).
      { apply elem_of_cons in Hin as [->|Hin]; [congruence | exact Hin]. }
      destruct (IH Hin' Hx) as (pre & y & post & -> & Hy & Hpre).
      exists (a :: pre), y, post. repeat split; auto.
      intros z Hz. apply elem_of_cons in Hz as [->|Hz]; auto.
    + exists [], a, l. repeat split; auto. intros z Hz. inversion Hz.
Qed.

(** ** Feature vectorizer *)

(** The dictionary of a request has exactly the fields of the record. *)
Lemma dict_keys (request : ReturnRequest) (name : string) :
  is_Some (dict request !! name) <-> name ∈ field_names.
Proof.
  rewrite <- elem_of_dom. unfold dict. rewrite dom_list_to_map_L.
  rewrite elem_of_list_to_set. reflexivity.
Qed.

Lemma fold_append_feature (request : ReturnRequest) (names : list string) :
  forall acc,
    fold_left (append_feature (dict request)) names acc
    = acc ++ map (feature_value request) names.
Proof.
  induction names as [|name names IH]; intros acc; simpl.
  - now rewrite app_nil_r.
  - rewrite IH. unfold append_feature, feature_value.
    destruct (dict request !! name); now rewrite <- app_assoc.
Qed.

Lemma validate_features_Some (st : State) (names : list string)
    (request : ReturnRequest) :
  feature_names st = Some names ->
  validate_features st request = Ok [map (feature_value request) names].
Proof.
  intros H. unfold validate_features. rewrite H.
  now rewrite fold_append_feature.
Qed.

Lemma validate_features_None (st : State) (request : ReturnRequest) :
  feature_names st = None ->
  validate_features st request = Raise model_not_loaded.
Proof. intros H. unfold validate_features. now rewrite H. Qed.



(** The sample request vectorized: the account age, the order value, [0.0]
    for the name the request does not have, and so on. *)
Example validate_features_sample :
  validate_features (sample_state 0.75) sample_request
  = Ok [[VInt 30; VFloat 150; VFloat 0; VFloat 0.125; VInt 0; VInt 1]].
Proof. vm_compute. reflexivity. Qed.

(** ** Single score *)

Section ScoreProperties.
Variable float_of_str : string -> option float.
Variable percentile : list float -> Z -> float.

Local Abbreviation score :=
  (score_return_request float_of_str percentile).
Local Abbreviation explain :=
  (get_top_risk_factors float_of_str percentile).

(** What a successful score was computed from. *)
Lemma score_return_request_Ok (st : State) (now : string)
    (request : ReturnRequest) (resp : FraudScoreResponse.t) :
  score st now request = Ok resp ->
  exists (m : Model) (names : list string) (s : float) (rest : list float)
         (factors : list RiskFactor.t),
    model st = Some m /\ feature_names st = Some names /\
    m [map (feature_value request) names] = Ok (s :: rest) /\
    item_score st m request = Ok s /\
    explain (map (feature_value request) names) (Some names)
      (feature_importance st) 5 = Ok factors /\
    resp = {| FraudScoreResponse.risk_score := s;
              FraudScoreResponse.is_flagged := (0.5 <? s)%float;
              FraudScoreResponse.confidence :=
                py_min 1 (abs (s - 0.5) * 2)%float;
              FraudScoreResponse.top_risk_factors := factors;
              FraudScoreResponse.timestamp := now;
              FraudScoreResponse.model_version :=
                metadata_get st "training_date" |}.
Proof.
  unfold score_return_request.
  destruct (model st) as [m|] eqn:Hm; [|discriminate].
  intros H. apply try_except_Ok in H. unfold score_body in H.
  destruct (feature_names st) as [names|] eqn:Hn.
  2:{ rewrite (validate_features_None st request Hn) in H. discriminate. }
  unfold item_score.
  rewrite (validate_features_Some st names request Hn) in *. simpl in H.
  apply bind_Ok in H as (predictions & Hp & H).
  destruct predictions as [|s rest]; [discriminate|]. simpl in H.
  apply bind_Ok in H as (factors & Hf & H). injection H as <-.
  exists m, names, s, rest, factors. simpl. rewrite Hp. simpl.
  repeat split; auto.
Qed.


(** C1. Under the scorer's contract (its predictions lie in [[0, 1]]),
    every score that is returned has [0 <= risk_score <= 1], and
    [is_flagged] is [risk_score > 0.5]: the score is the scorer's
    prediction, passed on unchanged, and the flag compares it with the
    fixed threshold. *)
Theorem score_range_and_flag (st : State) (m : Model) (now : string)
    (request : ReturnRequest) (resp : FraudScoreResponse.t) :
  model st = Some m -> model_contract m ->
  score st now request = Ok resp ->
  (0 <=? FraudScoreResponse.risk_score resp)%float = true /\
  (FraudScoreResponse.risk_score resp <=? 1)%float = true /\
  FraudScoreResponse.is_flagged resp
  = (0.5 <? FraudScoreResponse.risk_score resp)%float.
Proof.
  intros Hm Hc H.
  apply score_return_request_Ok in H
    as (m' & names & s & rest & factors & Hm' & Hn & Hp & _ & _ & ->).
  rewrite Hm in Hm'. injection Hm' as <-. simpl.
  destruct (Hc _ _ s Hp) as [H0 H1]; [left|]. auto.
Qed.

(** C2. The confidence of every returned score is
    [min(1.0, |risk_score - 0.5| * 2)]; that is [0.0] at the threshold
    [0.5] and [1.0] at the scores [0] and [1]. *)
Theorem score_confidence (st : State) (now : string)
    (request : ReturnRequest) (resp : FraudScoreResponse.t) :
  score st now request = Ok resp ->
  FraudScoreResponse.confidence resp
  = confidence_spec (FraudScoreResponse.risk_score resp) /\
  confidence_spec 0.5 = 0%float /\
  confidence_spec 0 = 1%float /\
  confidence_spec 1 = 1%float.
Proof.
  intros H.
  apply score_return_request_Ok in H
    as (m & names & s & rest & factors & _ & _ & _ & _ & _ & ->).
  repeat split.
Qed.

(** The risk factors of a returned score are the explainer's, on the vector
    of the request, the loaded names and the loaded importances. *)
Lemma score_top_risk_factors (st : State) (now : string)
    (request : ReturnRequest) (resp : FraudScoreResponse.t)
    (names : list string) :
  score st now request = Ok resp ->
  feature_names st = Some names ->
  explain (map (feature_value request) names) (Some names)
    (feature_importance st) 5
  = Ok (FraudScoreResponse.top_risk_factors resp).
Proof.
  intros H Hn.
  apply score_return_request_Ok in H
    as (m & names' & s & rest & factors & _ & Hn' & _ & _ & Hf & ->).
  rewrite Hn in Hn'. injection Hn' as <-. exact Hf.
Qed.

End ScoreProperties.

(** The sample requests pass the field constraints. *)
Example sample_requests_valid :
  request_valid sample_request = true /\
  request_valid sample_request_2 = true.
Proof. split; vm_compute; reflexivity. Qed.

(** A name that is not a field of the request reads [0.0]. *)
Example feature_value_absent :
  dict sample_request !! "account_tier" = None /\
  feature_value sample_request "account_tier" = VFloat 0.
Proof. split; vm_compute; reflexivity. Qed.

Lemma stub_model_contract (s : float) :
  (0 <=? s)%float = true -> (s <=? 1)%float = true ->
  model_contract (stub_model s).
Proof.
  intros H0 H1 x predictions y H Hy. injection H as <-.
  apply list_elem_of_singleton in Hy as ->. auto.
Qed.

Lemma score_range_and_flag_witness :
  model (sample_state 0.75) = Some (stub_model 0.75) /\
  model_contract (stub_model 0.75) /\
  exists resp,
    score_return_request no_float_of_str linear_percentile
      (sample_state 0.75) "2024-06-01T12:00:00" sample_request = Ok resp /\
    (0 <=? FraudScoreResponse.risk_score resp)%float = true /\
    (FraudScoreResponse.risk_score resp <=? 1)%float = true /\
    FraudScoreResponse.is_flagged resp
    = (0.5 <? FraudScoreResponse.risk_score resp)%float.
Proof.
  split; [reflexivity|].
  split; [apply stub_model_contract; reflexivity|].
  eexists. split; [vm_compute; reflexivity|].
  apply (score_range_and_flag no_float_of_str linear_percentile
           (sample_state 0.75) (stub_model 0.75) "2024-06-01T12:00:00"
           sample_request).
  - reflexivity.
  - apply stub_model_contract; reflexivity.
  - vm_compute. reflexivity.
Defined.

Lemma score_confidence_witness :
  exists resp,
    score_return_request no_float_of_str linear_percentile
      (sample_state 0.75) "2024-06-01T12:00:00" sample_request = Ok resp /\
    FraudScoreResponse.confidence resp
    = confidence_spec (FraudScoreResponse.risk_score resp) /\
    confidence_spec 0.5 = 0%float /\
    confidence_spec 0 = 1%float /\
    confidence_spec 1 = 1%float.
Proof.
  eexists. split; [vm_compute; reflexivity|].
  apply (score_confidence no_float_of_str linear_percentile
           (sample_state 0.75) "2024-06-01T12:00:00" sample_request).
  vm_compute. reflexivity.
Defined.

(** The sample request scored by a scorer that answers [0.75]: flagged, with
    confidence [0.5]; the two features of importance [4] are ranked first in
    their original order and are the only ones above the 75th percentile
    [3.75]. *)
Example score_sample :
  score_return_request no_float_of_str linear_percentile
    (sample_state 0.75) "2024-06-01T12:00:00" sample_request
  = Ok {| FraudScoreResponse.risk_score := 0.75;
          FraudScoreResponse.is_flagged := true;
          FraudScoreResponse.confidence := 0.5;
          FraudScoreResponse.top_risk_factors :=
            [ {| RiskFactor.feature := "user_age_days";
                 RiskFactor.value := 30; RiskFactor.importance := 4;
                 RiskFactor.risk_level := "high" |};
              {| RiskFactor.feature := "return_rate";
                 RiskFactor.value := 0.125; RiskFactor.importance := 4;
                 RiskFactor.risk_level := "high" |};
              {| RiskFactor.feature := "device_count";
                 RiskFactor.value := 1; RiskFactor.importance := 3;
                 RiskFactor.risk_level := "medium" |};
              {| RiskFactor.feature := "account_tier";
                 RiskFactor.value := 0; RiskFactor.importance := 2;
                 RiskFactor.risk_level := "medium" |};
              {| RiskFactor.feature := "order_value";
                 RiskFactor.value := 150; RiskFactor.importance := 1;
                 RiskFactor.risk_level := "medium" |} ];
          FraudScoreResponse.timestamp := "2024-06-01T12:00:00";
          FraudScoreResponse.model_version := VStr "2024-01-01" |}.
Proof. vm_compute. reflexivity. Qed.

(** ** Batch score *)

Lemma batch_item_score (st : State) (m : Model) (clock : nat -> string)
    (results : list BatchItem.t) (request : ReturnRequest) :
  batch_item st m clock results request
  = (s ← item_score st m request;
     Ok {| BatchItem.user_id := user_id request;
           BatchItem.order_id := order_id request;
           BatchItem.risk_score := s;
           BatchItem.is_flagged := (0.5 <? s)%float;
           BatchItem.timestamp := clock (length results) |}).
Proof.
  unfold batch_item, item_score.
  destruct (validate_features st request) as [features|e]; [simpl|reflexivity].
  destruct (m features) as [predictions|e]; [simpl|reflexivity].
  destruct (index0 predictions); reflexivity.
Qed.

Lemma fold_count_flagged (results : list BatchItem.t) :
  forall total,
    fold_left
      (fun total r => if BatchItem.is_flagged r then total + 1 else total)
      results total
    = total + Z.of_nat (length (flagged results)).
Proof.
  induction results as [|r results IH]; intros total; simpl.
  - lia.
  - rewrite IH. destruct (BatchItem.is_flagged r); simpl; lia.
Qed.

Lemma count_flagged_length (results : list BatchItem.t) :
  count_flagged results = Z.of_nat (length (flagged results)).
Proof. unfold count_flagged. now rewrite fold_count_flagged. Qed.

(** What a successful batch was computed from. *)
Lemma batch_score_Ok (st : State) (clock : nat -> string)
    (requests : list ReturnRequest) (out : BatchResponse.t) :
  batch_score_return_requests st clock requests = Ok out ->
  exists m,
    model st = Some m /\
    BatchResponse.total_processed out = length (BatchResponse.results out) /\
    BatchResponse.flagged_count out
    = count_flagged (BatchResponse.results out) /\
    length (BatchResponse.results out) = length requests /\
    forall (i : nat) (request : ReturnRequest),
      requests !! i = Some request ->
      exists s,
        item_score st m request = Ok s /\
        BatchResponse.results out !! i
        = Some {| BatchItem.user_id := user_id request;
                  BatchItem.order_id := order_id request;
                  BatchItem.risk_score := s;
                  BatchItem.is_flagged := (0.5 <? s)%float;
                  BatchItem.timestamp := clock i |}.
Proof.
  unfold batch_score_return_requests.
  destruct (model st) as [m|]; [|discriminate].
  intros H. apply try_except_Ok in H.
  apply bind_Ok in H as (results & Hloop & H). injection H as <-. simpl.
  exists m. do 3 (split; [reflexivity|]).
  apply for_append_Ok in Hloop as (ys & -> & Hlen & Hys). simpl.
  split; [exact Hlen|].
  intros i request Hi. destruct (Hys i request Hi) as (y & Hy & Hb).
  rewrite batch_item_score in Hb. simpl in Hb.
  apply bind_Ok in Hb as (s & Hs & Hb). injection Hb as <-.
  exists s. split; [exact Hs|]. rewrite Hy. do 2 f_equal.
  apply lookup_lt_Some in Hy. f_equal. rewrite length_take. lia.
Qed.

(** C5. A batch call that returns has [total_processed] equal to the number
    of results and [flagged_count] equal to the number of flagged results;
    there is one result per request, and the result at a position carries
    the identifiers and the score of the request at that position. *)
Theorem batch_invariants (st : State) (clock : nat -> string)
    (requests : list ReturnRequest) (out : BatchResponse.t) :
  batch_score_return_requests st clock requests = Ok out ->
  BatchResponse.total_processed out = length (BatchResponse.results out) /\
  BatchResponse.flagged_count out
  = Z.of_nat
      (length (List.filter BatchItem.is_flagged (BatchResponse.results out))) /\
  length (BatchResponse.results out) = length requests /\
  forall (i : nat) (request : ReturnRequest),
    requests !! i = Some request ->
    exists r m,
      BatchResponse.results out !! i = Some r /\
      BatchItem.user_id r = user_id request /\
      BatchItem.order_id r = order_id request /\
      model st = Some m /\
      item_score st m request = Ok (BatchItem.risk_score r).
Proof.
  intros H. apply batch_score_Ok in H as (m & Hm & Ht & Hf & Hlen & Hitems).
  split; [exact Ht|]. split; [rewrite Hf; apply count_flagged_length|].
  split; [exact Hlen|].
  intros i request Hi. destruct (Hitems i request Hi) as (s & Hs & Hr).
  eexists _, m. split; [exact Hr|]. simpl. auto.
Qed.

Lemma batch_invariants_witness :
  exists out,
    batch_score_return_requests (sample_state 0.75) sample_clock
      [sample_request; sample_request_2; sample_request] = Ok out /\
    BatchResponse.total_processed out = length (BatchResponse.results out) /\
    BatchResponse.flagged_count out
    = Z.of_nat
        (length (List.filter BatchItem.is_flagged (BatchResponse.results out))) /\
    length (BatchResponse.results out)
    = length [sample_request; sample_request_2; sample_request] /\
    forall (i : nat) (request : ReturnRequest),
      [sample_request; sample_request_2; sample_request] !! i = Some request ->
      exists r m,
        BatchResponse.results out !! i = Some r /\
        BatchItem.user_id r = user_id request /\
        BatchItem.order_id r = order_id request /\
        model (sample_state 0.75) = Some m /\
        item_score (sample_state 0.75) m request = Ok (BatchItem.risk_score r).
Proof.
  eexists. split; [vm_compute; reflexivity|].
  apply (batch_invariants (sample_state 0.75) sample_clock
           [sample_request; sample_request_2; sample_request]).
  vm_compute. reflexivity.
Defined.

(** The loop of the batch stops at the first request that cannot be
    vectorized or scored, and the handler wraps its exception. *)
Lemma batch_score_Raise (st : State) (m : Model) (clock : nat -> string)
    (pre post : list ReturnRequest) (failing : ReturnRequest) (e : exn) :
  model st = Some m ->
  (forall request, request ∈ pre -> is_ok (item_score st m request) = true) ->
  item_score st m failing = Raise e ->
  batch_score_return_requests st clock (pre ++ failing :: post)
  = Raise (HTTPException 500 (FString "Batch scoring error: " e)).
Proof.
  intros Hm Hpre Hfail. unfold batch_score_return_requests. rewrite Hm.
  rewrite (for_append_Raise (batch_item st m clock) pre post failing e).
  - reflexivity.
  - intros acc. rewrite batch_item_score, Hfail. reflexivity.
  - intros acc request Hin. rewrite batch_item_score.
    specialize (Hpre request Hin).
    destruct (item_score st m request) as [s|]; [|discriminate].
    simpl. eauto.
Qed.

(** C8. Batch scoring is all-or-nothing: when some request of the batch
    cannot be vectorized or scored, the call raises one error, built from the
    exception of the first such request, and returns no results, not even
    those of the requests before it. *)
Theorem batch_all_or_nothing (st : State) (m : Model) (clock : nat -> string)
    (requests : list ReturnRequest) (request : ReturnRequest) :
  model st = Some m ->
  request ∈ requests ->
  is_ok (item_score st m request) = false ->
  is_ok (batch_score_return_requests st clock requests) = false /\
  exists pre failing post e,
    requests = pre ++ failing :: post /\
    (forall r, r ∈ pre -> is_ok (item_score st m r) = true) /\
    item_score st m failing = Raise e /\
    batch_score_return_requests st clock requests
    = Raise (HTTPException 500 (FString "Batch scoring error: " e)).
Proof.
  intros Hm Hin Hfail.
  destruct (first_failure (fun r => is_ok (item_score st m r)) requests
              request Hin Hfail) as (pre & failing & post & -> & Hf & Hpre).
  destruct (item_score st m failing) as [s|e] eqn:He; [discriminate|].
  rewrite (batch_score_Raise st m clock pre post failing e Hm Hpre He).
  split; [reflexivity|].
  exists pre, failing, post, e. auto.
Qed.

Lemma batch_all_or_nothing_witness :
  model picky_state = Some picky_model /\
  sample_request_2 ∈ [sample_request; sample_request_2; sample_request] /\
  is_ok (item_score picky_state picky_model sample_request_2) = false /\
  is_ok (batch_score_return_requests picky_state sample_clock
           [sample_request; sample_request_2; sample_request]) = false /\
  exists pre failing post e,
    [sample_request; sample_request_2; sample_request]
    = pre ++ failing :: post /\
    (forall r, r ∈ pre -> is_ok (item_score picky_state picky_model r) = true) /\
    item_score picky_state picky_model failing = Raise e /\
    batch_score_return_requests picky_state sample_clock
      [sample_request; sample_request_2; sample_request]
    = Raise (HTTPException 500 (FString "Batch scoring error: " e)).
Proof.
  split; [reflexivity|].
  split; [right; left|].
  split; [vm_compute; reflexivity|].
  apply (batch_all_or_nothing picky_state picky_model sample_clock
           [sample_request; sample_request_2; sample_request]
           sample_request_2).
  - reflexivity.
  - right; left.
  - vm_compute. reflexivity.
Defined.

(** The batch with the request the picky scorer refuses in the middle: one
    error, and nothing of the first request's result. *)
Example batch_picky :
  batch_score_return_requests picky_state sample_clock
    [sample_request; sample_request_2; sample_request]
  = Raise (HTTPException 500
             (FString "Batch scoring error: "
                (Exception "ValueError: bad input"))).
Proof. vm_compute. reflexivity. Qed.

(** ** Availability *)

Section Availability.
Variable float_of_str : string -> option float.
Variable percentile : list float -> Z -> float.

Local Abbreviation score := (score_return_request float_of_str percentile).

(** C7. The health operation reports [healthy] exactly when a model is
    loaded, and [model_loaded] says whether one is.  With no model loaded it
    reports [model_loaded = false] and [unhealthy], and the score, batch
    score, metrics and feature-importance operations all raise an
    [HTTPException] with status 500 whose detail says that the model is not
    loaded; none returns a response. *)
Theorem no_model_unavailable (st : State) (now : string)
    (clock : nat -> string) (request : ReturnRequest)
    (requests : list ReturnRequest) :
  (HealthResponse.status (health_check st now) = "healthy"
   <-> is_Some (model st)) /\
  (HealthResponse.model_loaded (health_check st now) = true
   <-> is_Some (model st)) /\
  (model st = None ->
   HealthResponse.model_loaded (health_check st now) = false /\
   HealthResponse.status (health_check st now) = "unhealthy" /\
   score st now request = Raise (HTTPException 500 (Text "Model not loaded")) /\
   batch_score_return_requests st clock requests
   = Raise (HTTPException 500 (Text "Model not loaded")) /\
   get_model_metrics st = Raise (HTTPException 500 (Text "Model not loaded")) /\
   get_feature_importance st
   = Raise (HTTPException 500 (Text "Model or feature data not loaded"))).
Proof.
  unfold health_check, score_return_request, batch_score_return_requests,
    get_model_metrics, get_feature_importance.
  destruct (model st) as [m|]; simpl.
  - repeat split; eauto; discriminate.
  - repeat split; try discriminate; intros H; destruct H; discriminate.
Qed.

(** With the model loaded and the metadata absent, the metrics operation
    returns, and its feature-importance list is empty. *)
Lemma metrics_without_metadata (st : State) :
  metadata_absent st ->
  get_model_metrics st
  = Ok {| MetricsResponse.model_info :=
            {| ModelInfo.model_type := "LightGBM";
               ModelInfo.training_date := metadata_get st "training_date";
               ModelInfo.feature_count := 0;
               ModelInfo.random_state := metadata_get st "random_state" |};
          MetricsResponse.feature_importance := [] |}.
Proof.
  intros ((m & Hm) & Hn & Hi). unfold get_model_metrics.
  rewrite Hm, Hn. reflexivity.
Qed.

Lemma score_without_metadata (st : State) (now : string)
    (request : ReturnRequest) :
  metadata_absent st ->
  score st now request
  = Raise (HTTPException 500 (FString "Scoring error: " model_not_loaded)).
Proof.
  intros ((m & Hm) & Hn & Hi). unfold score_return_request, score_body.
  rewrite Hm, (validate_features_None st request Hn). reflexivity.
Qed.

Lemma item_score_without_metadata (st : State) (m : Model)
    (request : ReturnRequest) :
  feature_names st = None -> item_score st m request = Raise model_not_loaded.
Proof.
  intros Hn. unfold item_score.
  rewrite (validate_features_None st request Hn). reflexivity.
Qed.

(** C9, as the code has it. With a model loaded and the metadata absent, the
    metrics operation returns with an empty feature-importance list (and a
    feature count of zero); every single score raises, and so does every
    batch score of at least one request, each with the error of the
    vectorizer, which has no feature names; the batch score of no request
    returns an empty result. *)
Theorem metadata_absent_degrades (st : State) (now : string)
    (clock : nat -> string) (request : ReturnRequest)
    (requests : list ReturnRequest) :
  metadata_absent st ->
  (exists resp,
     get_model_metrics st = Ok resp /\
     MetricsResponse.feature_importance resp = [] /\
     ModelInfo.feature_count (MetricsResponse.model_info resp) = 0%nat) /\
  score st now request
  = Raise (HTTPException 500 (FString "Scoring error: " model_not_loaded)) /\
  batch_score_return_requests st clock (request :: requests)
  = Raise (HTTPException 500
             (FString "Batch scoring error: " model_not_loaded)) /\
  batch_score_return_requests st clock []
  = Ok {| BatchResponse.results := [];
          BatchResponse.total_processed := 0;
          BatchResponse.flagged_count := 0 |}.
Proof.
  intros Habsent. split; [|split; [|split]].
  - eexists. split; [apply metrics_without_metadata, Habsent|]. auto.
  - apply score_without_metadata, Habsent.
  - destruct Habsent as ((m & Hm) & Hn & Hi).
    apply (batch_score_Raise st m clock [] requests request); auto.
    + intros r Hr. inversion Hr.
    + now apply item_score_without_metadata.
  - destruct Habsent as ((m & Hm) & Hn & Hi).
    unfold batch_score_return_requests. rewrite Hm. reflexivity.
Qed.

End Availability.

Lemma no_model_unavailable_witness :
  model state_no_model = None /\
  HealthResponse.model_loaded (health_check state_no_model "2024-06-01T12:00:00")
  = false /\
  HealthResponse.status (health_check state_no_model "2024-06-01T12:00:00")
  = "unhealthy" /\
  score_return_request no_float_of_str linear_percentile state_no_model
    "2024-06-01T12:00:00" sample_request
  = Raise (HTTPException 500 (Text "Model not loaded")) /\
  batch_score_return_requests state_no_model sample_clock [sample_request]
  = Raise (HTTPException 500 (Text "Model not loaded")) /\
  get_model_metrics state_no_model
  = Raise (HTTPException 500 (Text "Model not loaded")) /\
  get_feature_importance state_no_model
  = Raise (HTTPException 500 (Text "Model or feature data not loaded")).
Proof.
  split; [reflexivity|].
  apply (no_model_unavailable no_float_of_str linear_percentile state_no_model
           "2024-06-01T12:00:00" sample_clock sample_request [sample_request]).
  reflexivity.
Defined.

Lemma state_no_metadata_absent : metadata_absent state_no_metadata.
Proof. split; [eexists; reflexivity|]. split; reflexivity. Qed.

(** The claim C9 fails on the empty batch: with a model loaded and no
    metadata, the batch score of an empty list of requests returns a
    response. *)
Lemma empty_batch_without_metadata :
  metadata_absent state_no_metadata /\
  batch_score_return_requests state_no_metadata sample_clock []
  = Ok {| BatchResponse.results := [];
          BatchResponse.total_processed := 0;
          BatchResponse.flagged_count := 0 |}.
Proof.
  split; [apply state_no_metadata_absent|]. vm_compute. reflexivity.
Qed.

Lemma metadata_absent_degrades_witness :
  metadata_absent state_no_metadata /\
  (exists resp,
     get_model_metrics state_no_metadata = Ok resp /\
     MetricsResponse.feature_importance resp = [] /\
     ModelInfo.feature_count (MetricsResponse.model_info resp) = 0%nat) /\
  score_return_request no_float_of_str linear_percentile state_no_metadata
    "2024-06-01T12:00:00" sample_request
  = Raise (HTTPException 500 (FString "Scoring error: " model_not_loaded)) /\
  batch_score_return_requests state_no_metadata sample_clock
    [sample_request; sample_request_2]
  = Raise (HTTPException 500
             (FString "Batch scoring error: " model_not_loaded)) /\
  batch_score_return_requests state_no_metadata sample_clock []
  = Ok {| BatchResponse.results := [];
          BatchResponse.total_processed := 0;
          BatchResponse.flagged_count := 0 |}.
Proof.
  split; [apply state_no_metadata_absent|].
  apply (metadata_absent_degrades no_float_of_str linear_percentile
           state_no_metadata "2024-06-01T12:00:00" sample_clock
           sample_request [sample_request_2]).
  apply state_no_metadata_absent.
Defined.

(** ** The order of floats *)

Lemma compare_cont_Eq (p q : positive) :
  PosDef.Pos.compare_cont Eq p q = (p ?= q)%positive.
Proof. reflexivity. Qed.

Ltac cases_compare :=
  repeat match goal with
  | |- context [Z.compare ?a ?b] => destruct (Z.compare_spec a b)
  | |- context [PosDef.Pos.compare_cont Eq ?a ?b] =>
      rewrite (compare_cont_Eq a b); destruct (Pos.compare_spec a b)
  end;
  simpl; intros; subst; try reflexivity; try discriminate; try lia.

Ltac cases_float x :=
  let s := fresh "s" in
  destruct x as [s|s| |s ? ?]; try destruct s.

Lemma SFleb_trans (a b c : spec_float) :
  SFleb a b = true -> SFleb b c = true -> SFleb a c = true.
Proof.
  unfold SFleb, SFcompare.
  cases_float a; cases_float b; cases_float c;
    try reflexivity; try discriminate; cases_compare.
Qed.

Lemma SFltb_false_leb (a b : spec_float) :
  a <> S754_nan -> b <> S754_nan -> SFltb a b = false -> SFleb b a = true.
Proof.
  unfold SFleb, SFltb, SFcompare.
  cases_float a; cases_float b;
    try reflexivity; try discriminate; try congruence;
    intros _ _; cases_compare.
Qed.

Lemma not_nan_spec (x : float) : is_nan x = false -> Prim2SF x <> S754_nan.
Proof.
  unfold is_nan. rewrite FloatAxioms.eqb_spec. intros H E.
  rewrite E in H. discriminate.
Qed.

Lemma ltb_leb (x y : float) : (x <? y)%float = true -> (x <=? y)%float = true.
Proof.
  rewrite ltb_spec, leb_spec. unfold SFltb, SFleb.
  destruct (SFcompare (Prim2SF x) (Prim2SF y)) as [[]|]; auto.
Qed.

Lemma ltb_not_eqb (x y : float) :
  (x <? y)%float = true -> (y =? x)%float = false.
Proof.
  rewrite ltb_spec, FloatAxioms.eqb_spec. unfold SFltb, SFeqb, SFcompare.
  generalize (Prim2SF x) (Prim2SF y). intros a b.
  cases_float a; cases_float b; try reflexivity; try discriminate;
    cases_compare.
Qed.

Lemma ltb_false_leb (x y : float) :
  is_nan x = false -> is_nan y = false ->
  (x <? y)%float = false -> (y <=? x)%float = true.
Proof.
  intros Hx Hy. rewrite ltb_spec, leb_spec.
  apply SFltb_false_leb; now apply not_nan_spec.
Qed.

Lemma leb_trans (x y z : float) :
  (x <=? y)%float = true -> (y <=? z)%float = true -> (x <=? z)%float = true.
Proof. rewrite !leb_spec. apply SFleb_trans. Qed.

(** ** The stable sort *)

Section SortFacts.
Context {A : Type} (key : A -> float).

Lemma insert_desc_perm (x : A) (l : list A) :
  Permutation (insert_desc key x l) (x :: l).
Proof.
  induction l as [|y l IH]; simpl.
  - reflexivity.
  - destruct (key x <? key y)%float.
    + rewrite IH. apply perm_swap.
    + reflexivity.
Qed.

Lemma sort_desc_perm (l : list A) : Permutation (sort_desc key l) l.
Proof.
  induction l as [|x l IH]; simpl.
  - reflexivity.
  - rewrite insert_desc_perm. now constructor.
Qed.

Lemma sort_desc_length (l : list A) : length (sort_desc key l) = length l.
Proof. apply Permutation_length, sort_desc_perm. Qed.

(** Sorting the images of a list sorts the list by the keys of the images. *)
Lemma insert_desc_map {B} (f : B -> A) (x : B) (l : list B) :
  insert_desc key (f x) (map f l)
  = map f (insert_desc (fun b => key (f b)) x l).
Proof.
  induction l as [|y l IH]; simpl.
  - reflexivity.
  - destruct (key (f x) <? key (f y))%float; simpl; now rewrite ?IH.
Qed.

Lemma sort_desc_map {B} (f : B -> A) (l : list B) :
  sort_desc key (map f l) = map f (sort_desc (fun b => key (f b)) l).
Proof.
  unfold sort_desc. induction l as [|x l IH]; simpl.
  - reflexivity.
  - rewrite IH. apply insert_desc_map.
Qed.

End SortFacts.

(** Sorting positions by a key without NaN lists them by decreasing key, and
    by increasing position where the keys are equal. *)
Section SortPositions.
Variable key : nat -> float.

Lemma insert_desc_sorted (x : nat) (l : list nat) :
  is_nan (key x) = false ->
  Forall (fun j => (x < j)%nat /\ is_nan (key j) = false) l ->
  StronglySorted (listed_before key) l ->
  StronglySorted (listed_before key) (insert_desc key x l).
Proof.
  intros Hx. induction l as [|y l IH]; intros Hl Hs; simpl.
  - repeat constructor.
  - apply Forall_cons_1 in Hl as [[Hxy Hy] Hl].
    apply StronglySorted_inv in Hs as [Hs Hyl].
    destruct (key x <? key y)%float eqn:Hlt.
    + constructor; [now apply IH|].
      rewrite insert_desc_perm. constructor; [|exact Hyl].
      split; [now apply ltb_leb|].
      rewrite (ltb_not_eqb _ _ Hlt). discriminate.
    + assert (Hle : (key y <=? key x)%float = true)
        by now apply ltb_false_leb.
      constructor; [now constructor|].
      constructor; [split; auto|].
      rewrite Forall_forall in Hl, Hyl. apply Forall_forall.
      intros z Hz. destruct (Hl z Hz) as [Hxz _].
      destruct (Hyl z Hz) as [Hzy _].
      split; [now apply leb_trans with (key y) | auto].
Qed.

Lemma sort_desc_seq_sorted (n : nat) :
  forall start,
    (forall i, (start <= i < start + n)%nat -> is_nan (key i) = false) ->
    StronglySorted (listed_before key) (sort_desc key (seq start n)).
Proof.
  induction n as [|n IH]; intros start Hnan; simpl.
  - constructor.
  - apply insert_desc_sorted.
    + apply Hnan. lia.
    + rewrite sort_desc_perm. apply Forall_forall. intros j Hj.
      apply list_elem_of_In, in_seq in Hj. split; [lia|]. apply Hnan. lia.
    + apply IH. intros i Hi. apply Hnan. lia.
Qed.

End SortPositions.

Lemma StronglySorted_app_inv {A} (R : A -> A -> Prop) (l1 l2 : list A) :
  StronglySorted R (l1 ++ l2) ->
  StronglySorted R l1 /\ forall x y, x ∈ l1 -> y ∈ l2 -> R x y.
Proof.
  induction l1 as [|a l1 IH]; simpl; intros H.
  - split; [constructor|]. intros x y Hx. inversion Hx.
  - apply StronglySorted_inv in H as [Hs Ha].
    destruct (IH Hs) as [Hs1 Hcross].
    rewrite Forall_app in Ha. destruct Ha as [Ha1 Ha2].
    split; [now constructor|].
    intros x y Hx Hy. apply elem_of_cons in Hx as [->|Hx]; [|now apply Hcross].
    rewrite Forall_forall in Ha2. now apply Ha2.
Qed.

Lemma StronglySorted_lookup {A} (R : A -> A -> Prop) (l : list A) :
  StronglySorted R l ->
  forall (k k' : nat) (x y : A),
    (k < k')%nat -> l !! k = Some x -> l !! k' = Some y -> R x y.
Proof.
  induction 1 as [|a l Hs IH Ha]; intros k k' x y Hlt Hx Hy.
  - rewrite lookup_nil in Hx. discriminate.
  - destruct k' as [|k']; [lia|]. simpl in Hy.
    destruct k as [|k]; simpl in Hx.
    + injection Hx as <-. rewrite Forall_forall in Ha. apply Ha.
      eapply list_elem_of_lookup_2, Hy.
    + apply (IH k k'); auto. lia.
Qed.

(** ** Explainer *)

Lemma zip3_seq (names : list string) :
  forall (features : row) (importances : list float),
    zip3 names features importances
    = map (triple_at names features importances)
        (seq 0 (shortest names features importances)).
Proof.
  unfold shortest.
  induction names as [|name names IH]; intros features importances.
  - reflexivity.
  - destruct features as [|v features]; [reflexivity|].
    destruct importances as [|x importances]; [reflexivity|].
    simpl. rewrite IH, <- seq_shift, map_map. reflexivity.
Qed.

Lemma slice_to_nonneg {A} (n : Z) (l : list A) :
  0 <= n -> slice_to n l = firstn (Z.to_nat n) l.
Proof.
  intros H. unfold slice_to. destruct (n <? 0) eqn:E; [lia | reflexivity].
Qed.

Section Positions.
Variables (names : list string) (features : row) (importances : list float).
Variable top_n : Z.

Local Abbreviation sorted_positions :=
  (sort_desc (importance_at importances)
     (seq 0 (shortest names features importances))).
Local Abbreviation positions :=
  (top_positions names features importances top_n).

Lemma sorted_positions_perm :
  Permutation sorted_positions (seq 0 (shortest names features importances)).
Proof. apply sort_desc_perm. Qed.

Lemma top_positions_split :
  positions ++ skipn (Z.to_nat top_n) sorted_positions = sorted_positions.
Proof. apply firstn_skipn. Qed.

Lemma top_positions_length :
  length positions
  = Nat.min (Z.to_nat top_n) (shortest names features importances).
Proof.
  unfold top_positions.
  now rewrite length_take, sort_desc_length, length_seq.
Qed.

Lemma top_positions_bound (i : nat) :
  i ∈ positions -> (i < shortest names features importances)%nat.
Proof.
  intros Hi.
  assert (Hs : i ∈ sorted_positions).
  { rewrite <- top_positions_split. apply elem_of_app. now left. }
  rewrite sorted_positions_perm in Hs.
  apply list_elem_of_In, in_seq in Hs. lia.
Qed.

Lemma top_positions_NoDup : NoDup positions.
Proof.
  assert (H : NoDup sorted_positions).
  { rewrite sorted_positions_perm. apply NoDup_seq. }
  rewrite <- top_positions_split in H. now apply NoDup_app in H as [H _].
Qed.

(** A position that is not selected was sorted after the selected ones. *)
Lemma not_selected (j : nat) :
  (j < shortest names features importances)%nat -> j ∉ positions ->
  j ∈ skipn (Z.to_nat top_n) sorted_positions.
Proof.
  intros Hj Hnot.
  assert (Hs : j ∈ sorted_positions).
  { rewrite sorted_positions_perm. apply list_elem_of_In, in_seq. lia. }
  rewrite <- top_positions_split in Hs.
  apply elem_of_app in Hs as [Hs|Hs]; [contradiction | exact Hs].
Qed.

Lemma top_positions_sorted :
  Forall (fun x => is_nan x = false) importances ->
  StronglySorted (ranks_before importances) sorted_positions.
Proof.
  intros Hnan. apply sort_desc_seq_sorted. intros i _.
  unfold importance_at. rewrite nth_lookup.
  destruct (importances !! i) as [x|] eqn:Hx; simpl; [|reflexivity].
  rewrite Forall_forall in Hnan. apply Hnan.
  eapply list_elem_of_lookup_2, Hx.
Qed.

End Positions.

Section ExplainerProperties.
Variable float_of_str : string -> option float.
Variable percentile : list float -> Z -> float.

Local Abbreviation explain :=
  (get_top_risk_factors float_of_str percentile).
Local Abbreviation describes' := (describes float_of_str percentile).

(** The dictionary built for the triple of a position describes it. *)
Lemma risk_factor_describes (names : list string) (features : row)
    (importances : list float) (i : nat) (f : RiskFactor.t) :
  (i < shortest names features importances)%nat ->
  risk_factor float_of_str percentile importances
    (triple_at names features importances i) = Ok f ->
  describes' names features importances i f.
Proof.
  unfold shortest, risk_factor, triple_at. intros Hi H.
  apply bind_Ok in H as (v & Hv & H). injection H as <-.
  unfold describes. simpl.
  destruct (nth_lookup_or_length names i "") as [->|]; [|lia].
  destruct (nth_lookup_or_length importances i 0%float) as [->|]; [|lia].
  destruct (nth_lookup_or_length features i (VFloat 0)) as [Hf|]; [|lia].
  repeat split; eauto.
Qed.

Lemma risk_factor_total (names : list string) (features : row)
    (importances : list float) (i : nat) :
  Forall (numeric float_of_str) features ->
  (i < shortest names features importances)%nat ->
  exists f,
    risk_factor float_of_str percentile importances
      (triple_at names features importances i) = Ok f.
Proof.
  unfold shortest, risk_factor, triple_at. intros Hnum Hi.
  destruct (nth_lookup_or_length features i (VFloat 0)) as [Hf|]; [|lia].
  rewrite Forall_forall in Hnum.
  specialize (Hnum _ (list_elem_of_lookup_2 _ _ _ Hf)). unfold numeric in Hnum.
  destruct (py_float float_of_str (nth i features (VFloat 0))) as [v|];
    [|discriminate].
  simpl. eauto.
Qed.

(** The explainer lists the selected positions, in their order. *)
Lemma get_top_risk_factors_positions (names : list string) (features : row)
    (importances : list float) (top_n : Z) :
  0 <= top_n ->
  Forall (numeric float_of_str) features ->
  exists factors,
    explain features (Some names) (Some importances) top_n = Ok factors /\
    length factors
    = length (top_positions names features importances top_n) /\
    forall (k : nat) (f : RiskFactor.t),
      factors !! k = Some f ->
      exists i,
        top_positions names features importances top_n !! k = Some i /\
        describes' names features importances i f.
Proof.
  intros Hn Hnum. unfold get_top_risk_factors.
  rewrite zip3_seq, (sort_desc_map (fun x => x.2)), (slice_to_nonneg _ _ Hn),
    firstn_map.
  fold (top_positions names features importances top_n).
  set (positions := top_positions names features importances top_n).
  destruct (for_append_total
              (fun _ => risk_factor float_of_str percentile importances)
              (map (triple_at names features importances) positions))
    with (acc := @nil RiskFactor.t) as (factors & Hloop).
  { intros _ x Hx. apply list_elem_of_In, in_map_iff in Hx as (i & <- & Hi).
    apply risk_factor_total; [exact Hnum|].
    apply (top_positions_bound _ _ _ top_n), list_elem_of_In, Hi. }
  exists factors. split; [exact Hloop|].
  apply for_append_Ok in Hloop as (ys & -> & Hlen & Hys). simpl.
  rewrite length_map in Hlen. split; [exact Hlen|].
  intros k f Hk.
  destruct (positions !! k) as [i|] eqn:Hi.
  2:{ apply lookup_ge_None in Hi. apply lookup_lt_Some in Hk. lia. }
  exists i. split; [reflexivity|].
  destruct (Hys k (triple_at names features importances i)) as (y & Hy & Hb).
  { rewrite lookup_map, Hi. reflexivity. }
  rewrite Hk in Hy. injection Hy as <-.
  apply risk_factor_describes; [|exact Hb].
  apply (top_positions_bound _ _ _ top_n). eapply list_elem_of_lookup_2, Hi.
Qed.

End ExplainerProperties.

Section ExplainerClaims.
Variable float_of_str : string -> option float.
Variable percentile : list float -> Z -> float.

Local Abbreviation explain :=
  (get_top_risk_factors float_of_str percentile).
Local Abbreviation score := (score_return_request float_of_str percentile).
Local Abbreviation describes' := (describes float_of_str percentile).

(** C4. With a numeric feature vector and importances (none of them NaN) as
    long as [feature_names], the explainer returns [min(5, len(feature_names))]
    risk factors.  They describe distinct positions of the inputs: each
    carries the name, the value of the vector and the importance at its
    position.  They are listed by decreasing importance, equal importances in
    their original order, and every position left out ranks after every
    position listed.  The level of each is "high" exactly when its importance
    exceeds the 75th percentile of all the importances, and "medium"
    otherwise. *)
Theorem top_risk_factors_ranked (features : row) (names : list string)
    (importances : list float) :
  length features = length names ->
  length importances = length names ->
  Forall (fun x => is_nan x = false) importances ->
  Forall (numeric float_of_str) features ->
  exists (factors : list RiskFactor.t) (positions : list nat),
    explain features (Some names) (Some importances) 5 = Ok factors /\
    length factors = Nat.min 5 (length names) /\
    length positions = length factors /\
    NoDup positions /\
    (forall (k : nat) (f : RiskFactor.t),
       factors !! k = Some f ->
       exists i, positions !! k = Some i /\
                 describes' names features importances i f) /\
    (forall (k k' : nat) (f g : RiskFactor.t),
       (k < k')%nat -> factors !! k = Some f -> factors !! k' = Some g ->
       (RiskFactor.importance g <=? RiskFactor.importance f)%float = true) /\
    (forall (k k' i j : nat),
       (k < k')%nat -> positions !! k = Some i -> positions !! k' = Some j ->
       ranks_before importances i j) /\
    (forall (i j : nat),
       i ∈ positions -> (j < length names)%nat -> j ∉ positions ->
       ranks_before importances i j) /\
    (forall f : RiskFactor.t,
       f ∈ factors ->
       (RiskFactor.risk_level f = "high" <->
        (percentile importances 75 <? RiskFactor.importance f)%float = true) /\
       (RiskFactor.risk_level f = "medium" <->
        (percentile importances 75 <? RiskFactor.importance f)%float = false)).
Proof.
  intros Hlf Hli Hnan Hnum.
  destruct (get_top_risk_factors_positions float_of_str percentile names
              features importances 5) as (factors & Hex & Hlen & Hdesc);
    [lia | exact Hnum |].
  assert (Hshort : shortest names features importances = length names)
    by (unfold shortest; lia).
  pose proof (top_positions_sorted names features importances Hnan) as Hsorted.
  rewrite <- (top_positions_split names features importances 5) in Hsorted.
  apply StronglySorted_app_inv in Hsorted as [Hsorted Hcross].
  exists factors, (top_positions names features importances 5).
  split; [exact Hex|]. split.
  { rewrite Hlen, top_positions_length, Hshort. reflexivity. }
  split; [now rewrite Hlen|].
  split; [apply top_positions_NoDup|].
  split; [exact Hdesc|]. split.
  { intros k k' f g Hlt Hf Hg.
    destruct (Hdesc k f Hf) as (i & Hi & _ & _ & Himp_i & _).
    destruct (Hdesc k' g Hg) as (j & Hj & _ & _ & Himp_j & _).
    destruct (StronglySorted_lookup _ _ Hsorted k k' i j Hlt Hi Hj) as [Hle _].
    unfold importance_at in Hle.
    now rewrite (nth_lookup_Some _ _ _ _ Himp_i),
      (nth_lookup_Some _ _ _ _ Himp_j) in Hle. }
  split.
  { intros k k' i j. now apply StronglySorted_lookup. }
  split.
  { intros i j Hi Hj Hnot. apply Hcross; [exact Hi|].
    apply not_selected; [rewrite Hshort; exact Hj | exact Hnot]. }
  intros f Hf. apply list_elem_of_lookup_1 in Hf as (k & Hk).
  destruct (Hdesc k f Hk) as (i & _ & _ & _ & _ & Hlevel).
  rewrite Hlevel.
  destruct (percentile importances 75 <? RiskFactor.importance f)%float;
    split; split; intros H; try reflexivity; discriminate.
Qed.

(** C10. The explainer does not fail when its three sequences differ in
    length: for a numeric feature vector and a top-N that is not negative it
    returns [min(top_n, shortest length)] risk factors, each describing a
    position below the shortest length. *)
Theorem explainer_truncates (features : row) (names : list string)
    (importances : list float) (top_n : Z) :
  0 <= top_n ->
  Forall (numeric float_of_str) features ->
  exists factors : list RiskFactor.t,
    explain features (Some names) (Some importances) top_n = Ok factors /\
    length factors
    = Nat.min (Z.to_nat top_n)
        (Nat.min (length names)
           (Nat.min (length features) (length importances))) /\
    forall f : RiskFactor.t,
      f ∈ factors ->
      exists i : nat,
        (i < Nat.min (length names)
               (Nat.min (length features) (length importances)))%nat /\
        describes' names features importances i f.
Proof.
  intros Hn Hnum.
  destruct (get_top_risk_factors_positions float_of_str percentile names
              features importances top_n Hn Hnum)
    as (factors & Hex & Hlen & Hdesc).
  exists factors. split; [exact Hex|]. split.
  { rewrite Hlen. apply top_positions_length. }
  intros f Hf. apply list_elem_of_lookup_1 in Hf as (k & Hk).
  destruct (Hdesc k f Hk) as (i & Hi & Hd).
  exists i. split; [|exact Hd].
  apply (top_positions_bound names features importances top_n).
  eapply list_elem_of_lookup_2, Hi.
Qed.



End ExplainerClaims.

Lemma sample_importance_no_nan :
  Forall (fun x => is_nan x = false) sample_importance.
Proof. repeat constructor. Qed.

Lemma sample_features_numeric :
  Forall (numeric no_float_of_str) sample_features.
Proof. repeat constructor. Qed.

Lemma short_features_numeric :
  Forall (numeric no_float_of_str) short_features.
Proof. repeat constructor. Qed.

Lemma top_risk_factors_ranked_witness :
  length sample_features = length sample_names /\
  length sample_importance = length sample_names /\
  Forall (fun x => is_nan x = false) sample_importance /\
  Forall (numeric no_float_of_str) sample_features /\
  exists (factors : list RiskFactor.t) (positions : list nat),
    get_top_risk_factors no_float_of_str linear_percentile sample_features
      (Some sample_names) (Some sample_importance) 5 = Ok factors /\
    length factors = Nat.min 5 (length sample_names) /\
    length positions = length factors /\
    NoDup positions /\
    (forall (k : nat) (f : RiskFactor.t),
       factors !! k = Some f ->
       exists i, positions !! k = Some i /\
                 describes no_float_of_str linear_percentile sample_names
                   sample_features sample_importance i f) /\
    (forall (k k' : nat) (f g : RiskFactor.t),
       (k < k')%nat -> factors !! k = Some f -> factors !! k' = Some g ->
       (RiskFactor.importance g <=? RiskFactor.importance f)%float = true) /\
    (forall (k k' i j : nat),
       (k < k')%nat -> positions !! k = Some i -> positions !! k' = Some j ->
       ranks_before sample_importance i j) /\
    (forall (i j : nat),
       i ∈ positions -> (j < length sample_names)%nat -> j ∉ positions ->
       ranks_before sample_importance i j) /\
    (forall f : RiskFactor.t,
       f ∈ factors ->
       (RiskFactor.risk_level f = "high" <->
        (linear_percentile sample_importance 75 <? RiskFactor.importance f)%float
        = true) /\
       (RiskFactor.risk_level f = "medium" <->
        (linear_percentile sample_importance 75 <? RiskFactor.importance f)%float
        = false)).
Proof.
  split; [reflexivity|]. split; [reflexivity|].
  split; [apply sample_importance_no_nan|].
  split; [apply sample_features_numeric|].
  apply (top_risk_factors_ranked no_float_of_str linear_percentile
           sample_features sample_names sample_importance).
  - reflexivity.
  - reflexivity.
  - apply sample_importance_no_nan.
  - apply sample_features_numeric.
Defined.

(** The positions selected for the sample importances: the two ties first,
    in their original order. *)
Example top_positions_sample :
  top_positions sample_names sample_features sample_importance 5
  = [0; 3; 5; 2; 1]%nat.
Proof. vm_compute. reflexivity. Qed.

Lemma explainer_truncates_witness :
  0 <= 3 /\
  Forall (numeric no_float_of_str) short_features /\
  exists factors : list RiskFactor.t,
    get_top_risk_factors no_float_of_str linear_percentile short_features
      (Some sample_names) (Some (firstn 5 sample_importance)) 3 = Ok factors /\
    length factors
    = Nat.min (Z.to_nat 3)
        (Nat.min (length sample_names)
           (Nat.min (length short_features)
              (length (firstn 5 sample_importance)))) /\
    forall f : RiskFactor.t,
      f ∈ factors ->
      exists i : nat,
        (i < Nat.min (length sample_names)
               (Nat.min (length short_features)
                  (length (firstn 5 sample_importance))))%nat /\
        describes no_float_of_str linear_percentile sample_names
          short_features (firstn 5 sample_importance) i f.
Proof.
  split; [lia|]. split; [apply short_features_numeric|].
  apply (explainer_truncates no_float_of_str linear_percentile short_features
           sample_names (firstn 5 sample_importance) 3).
  - lia.
  - apply short_features_numeric.
Defined.

(** Six names, four values and five importances: the explainer ranks the
    four positions that all three have. *)
Example explainer_mismatch_sample :
  get_top_risk_factors no_float_of_str linear_percentile short_features
    (Some sample_names) (Some (firstn 5 sample_importance)) 5
  = Ok [ {| RiskFactor.feature := "user_age_days";
            RiskFactor.value := 30; RiskFactor.importance := 4;
            RiskFactor.risk_level := "medium" |};
         {| RiskFactor.feature := "return_rate";
            RiskFactor.value := 0.125; RiskFactor.importance := 4;
            RiskFactor.risk_level := "medium" |};
         {| RiskFactor.feature := "account_tier";
            RiskFactor.value := 0; RiskFactor.importance := 2;
            RiskFactor.risk_level := "medium" |};
         {| RiskFactor.feature := "order_value";
            RiskFactor.value := 150; RiskFactor.importance := 1;
            RiskFactor.risk_level := "medium" |} ].
Proof. vm_compute. reflexivity. Qed.


(** ** What the hypotheses exclude *)

(** The score is the scorer's prediction, not clamped: a scorer outside its
    contract gives a score outside [[0, 1]]. *)
Example score_outside_contract :
  exists resp,
    score_return_request no_float_of_str linear_percentile (sample_state 1.5)
      "2024-06-01T12:00:00" sample_request = Ok resp /\
    FraudScoreResponse.risk_score resp = 1.5%float /\
    FraudScoreResponse.is_flagged resp = true /\
    FraudScoreResponse.confidence resp = 1%float.
Proof. eexists. split; [vm_compute; reflexivity|]. repeat split. Qed.

(** A feature name that selects an identifier puts a string in the vector:
    the explainer's [float(value)] raises on it, so the single score fails
    where the batch score, which does not explain, returns. *)
Example score_identifier_feature :
  score_return_request no_float_of_str linear_percentile identifier_state
    "2024-06-01T12:00:00" sample_request
  = Raise (HTTPException 500
             (FString "Scoring error: "
                (Exception "ValueError: could not convert string to float")))
  /\
  batch_score_return_requests identifier_state sample_clock [sample_request]
  = Ok {| BatchResponse.results :=
            [ {| BatchItem.user_id := "test_user_001";
                 BatchItem.order_id := "test_order_001";
                 BatchItem.risk_score := 0.75;
                 BatchItem.is_flagged := true;
                 BatchItem.timestamp := "2024-01-01T00:00:00" |} ];
          BatchResponse.total_processed := 1;
          BatchResponse.flagged_count := 1 |}.
Proof. split; vm_compute; reflexivity. Qed.

(** A negative [top_n] slices from the end: all but the last item. *)
Example explainer_negative_top_n :
  exists factors,
    get_top_risk_factors no_float_of_str linear_percentile sample_features
      (Some sample_names) (Some sample_importance) (-1) = Ok factors /\
    length factors = 5%nat.
Proof. eexists. split; [vm_compute; reflexivity|]. reflexivity. Qed.

(** * Further properties of the code *)

(** ** Start-up *)


(** X2. After start-up the health operation says [healthy] exactly when the
    model file exists and loads; the metadata file has no part in it. *)
Theorem health_after_lifespan (model_file : option (result Model))
    (metadata_file : option (result MetadataDocument)) (now : string) :
  HealthResponse.status (health_check (lifespan model_file metadata_file) now)
  = "healthy"
  <-> exists m, model_file = Some (Ok m).
Proof.
  unfold health_check, lifespan.
  destruct model_file as [[m|e]|]; simpl.
  - destruct metadata_file as [[document|e]|]; simpl;
      [destruct (feature_names_entry document)|..]; simpl;
      split; eauto.
  - split; [discriminate | intros [m H]; discriminate].
  - split; [discriminate | intros [m H]; discriminate].
Qed.

(** The metadata file gives no feature names: it is missing, it does not
    load, or its document has no [feature_names] entry. *)
Lemma lifespan_without_names (m : Model)
    (metadata_file : option (result MetadataDocument)) :
  (metadata_file = None \/
   (exists e, metadata_file = Some (Raise e)) \/
   (exists document, metadata_file = Some (Ok document) /\
                     feature_names_entry document = None)) ->
  feature_names (lifespan (Some (Ok m)) metadata_file) = None /\
  feature_importance (lifespan (Some (Ok m)) metadata_file) = None /\
  model (lifespan (Some (Ok m)) metadata_file) = Some m.
Proof.
  intros [->|[(e & ->)|(document & -> & Hn)]]; simpl; auto.
  rewrite Hn. auto.
Qed.

Section StartUpProperties.
Variable float_of_str : string -> option float.
Variable percentile : list float -> Z -> float.

Local Abbreviation score := (score_return_request float_of_str percentile).

(** X3. A healthy service need not score.  When the model loads but the
    metadata file is missing, does not load, or has no [feature_names]
    entry, the health operation says [healthy] and [model_loaded], while
    every single score raises the vectorizer's error, wrapped, and the
    feature-importance operation raises too. *)
Theorem healthy_without_scoring (m : Model)
    (metadata_file : option (result MetadataDocument)) (now : string)
    (request : ReturnRequest) :
  (metadata_file = None \/
   (exists e, metadata_file = Some (Raise e)) \/
   (exists document, metadata_file = Some (Ok document) /\
                     feature_names_entry document = None)) ->
  HealthResponse.status
    (health_check (lifespan (Some (Ok m)) metadata_file) now) = "healthy" /\
  HealthResponse.model_loaded
    (health_check (lifespan (Some (Ok m)) metadata_file) now) = true /\
  score (lifespan (Some (Ok m)) metadata_file) now request
  = Raise (HTTPException 500 (FString "Scoring error: " model_not_loaded)) /\
  get_feature_importance (lifespan (Some (Ok m)) metadata_file)
  = Raise (HTTPException 500 (Text "Model or feature data not loaded")).
Proof.
  intros H. destruct (lifespan_without_names m metadata_file H)
    as (Hn & Hi & Hm).
  unfold health_check. rewrite Hm. split; [reflexivity|].
  split; [reflexivity|]. split.
  - apply score_without_metadata. split; [eauto|]. auto.
  - unfold get_feature_importance. rewrite Hm, Hn. reflexivity.
Qed.


End StartUpProperties.


(** ** More on the order of floats *)

Lemma SFltb_leb_trans (a b c : spec_float) :
  SFltb a b = true -> SFleb b c = true -> SFltb a c = true.
Proof.
  unfold SFltb, SFleb, SFcompare.
  cases_float a; cases_float b; cases_float c;
    try reflexivity; try discriminate; cases_compare.
Qed.

Lemma ltb_leb_trans (x y z : float) :
  (x <? y)%float = true -> (y <=? z)%float = true -> (x <? z)%float = true.
Proof. rewrite !ltb_spec, leb_spec. apply SFltb_leb_trans. Qed.

(** Not less and at most is equal. *)
Lemma leb_not_ltb_eqb (x y : float) :
  (x <=? y)%float = true -> (x <? y)%float = false -> (x =? y)%float = true.
Proof.
  rewrite leb_spec, ltb_spec, FloatAxioms.eqb_spec.
  unfold SFleb, SFltb, SFeqb.
  destruct (SFcompare (Prim2SF x) (Prim2SF y)) as [[]|]; auto.
Qed.

(** A number that is not negative: its sign bit is clear, or it is a zero;
    a NaN counts, since it has no sign. *)
Definition sign_clear (f : spec_float) : Prop :=
  match f with
  | S754_zero _ | S754_nan => True
  | S754_infinity s | S754_finite s _ _ => s = false
  end.

Lemma binary_round_aux_sign (mx ex : Z) (lx : location) :
  sign_clear (binary_round_aux prec emax false mx ex lx).
Proof.
  unfold binary_round_aux.
  destruct (shr_fexp prec emax mx ex lx) as [mrs' e'].
  destruct (shr_fexp prec emax _ e' loc_Exact) as [mrs'' e''].
  destruct (shr_m mrs''); simpl; auto.
  destruct (e'' <=? emax - prec); simpl; auto.
Qed.

Lemma SFmul_abs_sign (a : spec_float) (m : positive) (e : Z) :
  sign_clear (SFmul prec emax (SFabs a) (S754_finite false m e)).
Proof.
  destruct a as [s|s| |s ma ea]; unfold SFabs, SFmul, xorb; simpl; auto.
  apply binary_round_aux_sign.
Qed.

Lemma sign_clear_leb (f : spec_float) :
  sign_clear f -> f <> S754_nan -> SFleb (S754_zero false) f = true.
Proof.
  destruct f as [s|s| |s m e]; simpl; intros Hs Hn;
    try subst s; try reflexivity; congruence.
Qed.

(** Twice an absolute value that is less than something is not negative. *)
Lemma abs_twice_nonneg (x y : float) :
  (abs x * 2 <? y)%float = true -> (0 <=? abs x * 2)%float = true.
Proof.
  rewrite ltb_spec, leb_spec, mul_spec, abs_spec.
  replace (Prim2SF 0) with (S754_zero false) by (vm_compute; reflexivity).
  replace (Prim2SF 2) with (S754_finite false 4503599627370496 (-51))
    by (vm_compute; reflexivity).
  unfold SF64mul. intros H. apply sign_clear_leb; [apply SFmul_abs_sign|].
  intros E. rewrite E in H. discriminate.
Qed.

(** ** The decision policy *)

Lemma py_min_one_range (c : float) :
  ((c <? 1)%float = true -> (0 <=? c)%float = true) ->
  (0 <=? py_min 1 c)%float = true /\ (py_min 1 c <=? 1)%float = true.
Proof.
  intros H. unfold py_min. destruct (c <? 1)%float eqn:Hc.
  - split; [now apply H | now apply ltb_leb].
  - split; reflexivity.
Qed.

Section PolicyProperties.
Variable float_of_str : string -> option float.
Variable percentile : list float -> Z -> float.

Local Abbreviation score := (score_return_request float_of_str percentile).

(** X8. The confidence of every returned score lies in [[0, 1]], whatever
    the scorer predicted: a score outside [[0, 1]], an infinity or a NaN
    included. *)
Theorem confidence_in_unit_interval (st : State) (now : string)
    (request : ReturnRequest) (resp : FraudScoreResponse.t) :
  score st now request = Ok resp ->
  (0 <=? FraudScoreResponse.confidence resp)%float = true /\
  (FraudScoreResponse.confidence resp <=? 1)%float = true.
Proof.
  intros H.
  apply score_return_request_Ok in H
    as (m & names & s & rest & factors & _ & _ & _ & _ & _ & ->).
  simpl. apply py_min_one_range. apply abs_twice_nonneg.
Qed.


(** X19. A score depends on the request only through the features that the
    model names: two requests whose dictionaries agree on every loaded
    feature name get the same response, whatever else differs (their
    identifiers, say). *)
Theorem score_depends_on_named_features (st : State) (names : list string)
    (now : string) (request request' : ReturnRequest) :
  feature_names st = Some names ->
  (forall name, name ∈ names -> dict request !! name = dict request' !! name) ->
  score st now request = score st now request'.
Proof.
  intros Hn Hagree. unfold score_return_request, score_body.
  rewrite (validate_features_Some st names request Hn),
    (validate_features_Some st names request' Hn).
  replace (map (feature_value request') names)
    with (map (feature_value request) names); [reflexivity|].
  apply map_ext_in. intros name Hin. unfold feature_value.
  rewrite (Hagree name); [reflexivity|]. now apply list_elem_of_In.
Qed.

End PolicyProperties.

(** ** More on the explainer and the rankings *)

(** The name and the importance of a triple. *)
Definition name_and_importance (x : string * pyval * float) : string * float :=
  (x.1.1, x.2).

(** The name and the importance of a risk factor. *)
Definition factor_name_and_importance (f : RiskFactor.t) : string * float :=
  (RiskFactor.feature f, RiskFactor.importance f).

Lemma for_append_Forall2 {A B} (body : A -> result B) (items : list A)
    (out : list B) :
  for_append (fun _ => body) items [] = Ok out ->
  Forall2 (fun x y => body x = Ok y) items out.
Proof.
  intros H. apply for_append_Ok in H as (ys & -> & Hlen & Hys). simpl.
  apply Forall2_same_length_lookup_2; [now symmetry|].
  intros i x y Hx Hy. destruct (Hys i x Hx) as (y' & Hy' & Hb).
  rewrite Hy in Hy'. now injection Hy' as <-.
Qed.

Lemma zip3_names_and_importances (names : list string) :
  forall (features : row) (importances : list float),
    length features = length names ->
    map name_and_importance (zip3 names features importances)
    = zip names importances.
Proof.
  induction names as [|name names IH]; intros features importances Hlen.
  - reflexivity.
  - destruct features as [|v features]; [discriminate|].
    destruct importances as [|x importances]; [reflexivity|].
    simpl. rewrite IH; [reflexivity|]. simpl in Hlen. lia.
Qed.

Lemma zip3_value_in {A C} (l1 : list A) :
  forall (l2 : row) (l3 : list C) (x : A * pyval * C),
    x ∈ zip3 l1 l2 l3 -> x.1.2 ∈ l2.
Proof.
  induction l1 as [|a l1 IH]; intros l2 l3 x Hx.
  - inversion Hx.
  - destruct l2 as [|b l2]; [inversion Hx|].
    destruct l3 as [|c l3]; [inversion Hx|].
    simpl in Hx. apply elem_of_cons in Hx as [->|Hx]; [left|].
    right. eapply IH, Hx.
Qed.

Lemma slice_to_subset {A} (n : Z) (l : list A) (x : A) :
  x ∈ slice_to n l -> x ∈ l.
Proof.
  unfold slice_to. destruct (n <? 0); intros Hx;
    apply elem_of_take in Hx as (i & Hi & _);
    eapply list_elem_of_lookup_2, Hi.
Qed.

Lemma zip3_length (names : list string) (features : row)
    (importances : list float) :
  length (zip3 names features importances)
  = shortest names features importances.
Proof. now rewrite zip3_seq, length_map, length_seq. Qed.

Section RankingProperties.
Variable float_of_str : string -> option float.
Variable percentile : list float -> Z -> float.

Local Abbreviation explain :=
  (get_top_risk_factors float_of_str percentile).
Local Abbreviation score := (score_return_request float_of_str percentile).

(** The explainer's list, item by item, when it returns. *)
Lemma get_top_risk_factors_Ok (features : row) (names : list string)
    (importances : list float) (top_n : Z) (factors : list RiskFactor.t) :
  explain features (Some names) (Some importances) top_n = Ok factors ->
  Forall2
    (fun x f => risk_factor float_of_str percentile importances x = Ok f)
    (slice_to top_n
       (sort_desc (fun x => x.2) (zip3 names features importances)))
    factors.
Proof. unfold get_top_risk_factors. apply for_append_Forall2. Qed.

Lemma risk_factor_name_and_importance (importances : list float)
    (x : string * pyval * float) (f : RiskFactor.t) :
  risk_factor float_of_str percentile importances x = Ok f ->
  factor_name_and_importance f = name_and_importance x.
Proof.
  destruct x as [[name v] importance]. unfold risk_factor.
  intros H. apply bind_Ok in H as (v' & _ & H). now injection H as <-.
Qed.

(** The explainer returns on every numeric vector, for every [top_n]. *)
Lemma get_top_risk_factors_total (features : row) (names : list string)
    (importances : list float) (top_n : Z) :
  Forall (numeric float_of_str) features ->
  exists factors,
    explain features (Some names) (Some importances) top_n = Ok factors.
Proof.
  intros Hnum. unfold get_top_risk_factors.
  apply for_append_total. intros _ x Hx.
  apply slice_to_subset in Hx. rewrite sort_desc_perm in Hx.
  apply zip3_value_in in Hx. rewrite Forall_forall in Hnum.
  specialize (Hnum _ Hx). unfold numeric in Hnum.
  destruct x as [[name v] importance]. unfold risk_factor. simpl in *.
  destruct (py_float float_of_str v) as [v'|]; [|discriminate].
  simpl. eauto.
Qed.

(** X16. A negative [top_n] does not select the top entries but drops the
    last ones: on a numeric vector the explainer then returns the whole
    ranking of the zipped positions without its last [-top_n] entries (none
    when there are not that many). *)
Theorem explainer_negative_top_n_drops (features : row)
    (names : list string) (importances : list float) (top_n : Z) :
  top_n < 0 ->
  Forall (numeric float_of_str) features ->
  exists factors : list RiskFactor.t,
    explain features (Some names) (Some importances) top_n = Ok factors /\
    length factors
    = Z.to_nat
        (Z.of_nat (Nat.min (length names)
                     (Nat.min (length features) (length importances)))
         + top_n) /\
    map factor_name_and_importance factors
    = map name_and_importance
        (firstn (length factors)
           (sort_desc (fun x => x.2) (zip3 names features importances))).
Proof.
  intros Hn Hnum.
  destruct (get_top_risk_factors_total features names importances top_n Hnum)
    as (factors & Hex).
  exists factors. split; [exact Hex|].
  apply get_top_risk_factors_Ok in Hex.
  assert (Hslice : slice_to top_n
            (sort_desc (fun x => x.2) (zip3 names features importances))
          = firstn (Z.to_nat (Z.of_nat (shortest names features importances)
                              + top_n))
              (sort_desc (fun x => x.2) (zip3 names features importances))).
  { unfold slice_to. destruct (top_n <? 0) eqn:E; [|lia].
    now rewrite sort_desc_length, zip3_length. }
  rewrite Hslice in Hex.
  assert (Hlen : length factors
                 = Z.to_nat (Z.of_nat (shortest names features importances)
                             + top_n)).
  { rewrite <- (Forall2_length _ _ _ Hex), length_take, sort_desc_length,
      zip3_length. lia. }
  split; [exact Hlen|]. rewrite Hlen.
  clear Hlen Hslice. induction Hex as [|x f items factors Hxf _ IH].
  - reflexivity.
  - simpl. now rewrite IH, (risk_factor_name_and_importance _ _ _ Hxf).
Qed.

(** X7. A score never carries more than five risk factors, so the demo
    client, which prints the first five, prints them all. *)
Theorem score_lists_at_most_five (st : State) (now : string)
    (request : ReturnRequest) (resp : FraudScoreResponse.t) :
  score st now request = Ok resp ->
  (length (FraudScoreResponse.top_risk_factors resp) <= 5)%nat /\
  Demo.listed_risk_factors resp = FraudScoreResponse.top_risk_factors resp.
Proof.
  intros H.
  assert (Hlen : (length (FraudScoreResponse.top_risk_factors resp) <= 5)%nat).
  { apply score_return_request_Ok in H
      as (m & names & s & rest & factors & _ & _ & _ & _ & Hf & ->).
    simpl. destruct (feature_importance st) as [importances|].
    - apply get_top_risk_factors_Ok in Hf.
      rewrite <- (Forall2_length _ _ _ Hf), slice_to_nonneg by lia.
      rewrite length_take. lia.
    - injection Hf as <-. simpl. lia. }
  split; [exact Hlen|].
  unfold Demo.listed_risk_factors. rewrite slice_to_nonneg by lia.
  now apply take_ge.
Qed.

(** X9. The explanation of a score is the head of the global ranking: the
    names and importances of its risk factors are the first five entries of
    the list that the feature-importance operation returns, in that order,
    for every request. *)
Theorem explanation_is_ranking_head (st : State) (now : string)
    (request : ReturnRequest) (resp : FraudScoreResponse.t)
    (ranking : FeatureImportanceResponse.t) :
  score st now request = Ok resp ->
  get_feature_importance st = Ok ranking ->
  map factor_name_and_importance (FraudScoreResponse.top_risk_factors resp)
  = firstn 5 (FeatureImportanceResponse.feature_importance ranking).
Proof.
  intros Hs Hr. unfold get_feature_importance in Hr.
  destruct (model st) as [m|]; [|discriminate].
  destruct (feature_names st) as [names|] eqn:Hn; [|discriminate].
  destruct (feature_importance st) as [importances|] eqn:Hi; [|discriminate].
  injection Hr as <-. simpl.
  pose proof (score_top_risk_factors float_of_str percentile st now request
                resp names Hs Hn) as Hf.
  rewrite Hi in Hf. apply get_top_risk_factors_Ok in Hf.
  rewrite slice_to_nonneg in Hf by lia.
  unfold ranked_importance.
  rewrite <- (zip3_names_and_importances names
                (map (feature_value request) names) importances)
    by apply length_map.
  rewrite (sort_desc_map snd name_and_importance), firstn_map.
  change (fun b : string * pyval * float => (name_and_importance b).2)
    with (fun x : string * pyval * float => x.2).
  change (Z.to_nat 5) with 5%nat in Hf.
  induction Hf as [|x f items factors Hxf _ IH].
  - reflexivity.
  - simpl. now rewrite IH, (risk_factor_name_and_importance _ _ _ Hxf).
Qed.

End RankingProperties.

(** ** The rankings of the metrics and feature-importance operations *)

Section SortValues.
Context {A : Type} (key : A -> float).

Lemma insert_desc_descending (x : A) (l : list A) :
  is_nan (key x) = false ->
  Forall (fun y => is_nan (key y) = false) l ->
  StronglySorted (fun a b => (key b <=? key a)%float = true) l ->
  StronglySorted (fun a b => (key b <=? key a)%float = true)
    (insert_desc key x l).
Proof.
  intros Hx. induction l as [|y l IH]; intros Hl Hs; simpl.
  - repeat constructor.
  - apply Forall_cons_1 in Hl as [Hy Hl].
    apply StronglySorted_inv in Hs as [Hs Hyl].
    destruct (key x <? key y)%float eqn:Hlt.
    + constructor; [now apply IH|].
      rewrite insert_desc_perm. constructor; [now apply ltb_leb | exact Hyl].
    + assert (Hle : (key y <=? key x)%float = true)
        by now apply ltb_false_leb.
      constructor; [now constructor|].
      constructor; [exact Hle|].
      rewrite Forall_forall in Hyl. apply Forall_forall.
      intros z Hz. now apply leb_trans with (key y); [apply Hyl|].
Qed.

Lemma sort_desc_descending (l : list A) :
  Forall (fun y => is_nan (key y) = false) l ->
  StronglySorted (fun a b => (key b <=? key a)%float = true)
    (sort_desc key l).
Proof.
  induction l as [|x l IH]; intros Hl; simpl.
  - constructor.
  - apply Forall_cons_1 in Hl as [Hx Hl].
    apply insert_desc_descending; auto.
    now rewrite sort_desc_perm.
Qed.

End SortValues.

Lemma zip_snd_in {A B} (l1 : list A) (l2 : list B) (x : A * B) :
  x ∈ zip l1 l2 -> x.2 ∈ l2.
Proof.
  revert l2. induction l1 as [|a l1 IH]; intros l2 Hx.
  - inversion Hx.
  - destruct l2 as [|b l2]; [inversion Hx|]. simpl in Hx.
    apply elem_of_cons in Hx as [->|Hx]; [left | right; now apply IH].
Qed.

(** X10. The ranking of the feature-importance operation is a rearrangement
    of the name and importance pairs: it lists as many features as both
    lists have, each once; a name without an importance is left out of the
    ranking, though [total_features] counts it. *)
Theorem ranking_is_rearrangement (st : State) (names : list string)
    (importances : list float) (ranking : FeatureImportanceResponse.t) :
  feature_names st = Some names ->
  feature_importance st = Some importances ->
  get_feature_importance st = Ok ranking ->
  Permutation (FeatureImportanceResponse.feature_importance ranking)
    (zip names importances) /\
  length (FeatureImportanceResponse.feature_importance ranking)
  = Nat.min (length names) (length importances) /\
  FeatureImportanceResponse.total_features ranking = length names /\
  (length (FeatureImportanceResponse.feature_importance ranking)
   <= FeatureImportanceResponse.total_features ranking)%nat.
Proof.
  intros Hn Hi H. unfold get_feature_importance in H. rewrite Hn, Hi in H.
  destruct (model st); [|discriminate]. injection H as <-. simpl.
  unfold ranked_importance.
  assert (Hlen : length (sort_desc snd (zip names importances))
                 = Nat.min (length names) (length importances))
    by now rewrite sort_desc_length, length_zip.
  split; [apply sort_desc_perm|]. split; [exact Hlen|].
  split; [reflexivity|]. rewrite Hlen. lia.
Qed.

(** X11. When no importance is a NaN, the ranking of the feature-importance
    operation runs from the most to the least important feature. *)
Theorem ranking_is_descending (st : State) (importances : list float)
    (ranking : FeatureImportanceResponse.t) :
  feature_importance st = Some importances ->
  Forall (fun x => is_nan x = false) importances ->
  get_feature_importance st = Ok ranking ->
  forall (k k' : nat) (earlier later : string * float),
    (k < k')%nat ->
    FeatureImportanceResponse.feature_importance ranking !! k = Some earlier ->
    FeatureImportanceResponse.feature_importance ranking !! k' = Some later ->
    (later.2 <=? earlier.2)%float = true.
Proof.
  intros Hi Hnan H. unfold get_feature_importance in H. rewrite Hi in H.
  destruct (model st); [|discriminate].
  destruct (feature_names st) as [names|]; [|discriminate].
  injection H as <-. simpl. unfold ranked_importance.
  intros k k' earlier later.
  apply (StronglySorted_lookup
           (fun a b : string * float => (b.2 <=? a.2)%float = true)).
  apply (sort_desc_descending snd).
  apply Forall_forall. intros x Hx. apply zip_snd_in in Hx.
  rewrite Forall_forall in Hnan. now apply Hnan.
Qed.

(** X12. The two operations that rank the features agree: whenever the
    feature-importance operation returns, the metrics operation returns the
    same ranking, and its feature count is the other's total. *)
Theorem metrics_agree_with_feature_importance (st : State)
    (ranking : FeatureImportanceResponse.t) :
  get_feature_importance st = Ok ranking ->
  exists metrics,
    get_model_metrics st = Ok metrics /\
    MetricsResponse.feature_importance metrics
    = FeatureImportanceResponse.feature_importance ranking /\
    ModelInfo.feature_count (MetricsResponse.model_info metrics)
    = FeatureImportanceResponse.total_features ranking.
Proof.
  unfold get_feature_importance, get_model_metrics.
  destruct (model st) as [m|]; [|discriminate].
  destruct (feature_names st) as [names|]; [|discriminate].
  destruct (feature_importance st) as [importances|]; [|discriminate].
  intros H. injection H as <-. eexists. split; [reflexivity|]. simpl.
  destruct names; split; reflexivity.
Qed.

(** ** More on the batch *)

Lemma for_append_app {A B} (body : list B -> A -> result B)
    (l1 l2 : list A) :
  forall acc,
    for_append body (l1 ++ l2) acc
    = (out ← for_append body l1 acc; for_append body l2 out).
Proof.
  induction l1 as [|x l1 IH]; intros acc; simpl.
  - reflexivity.
  - destruct (body acc x) as [y|e]; simpl; [apply IH | reflexivity].
Qed.

(** A loop that starts with something appended behaves as the loop from
    nothing whose body sees that prefix. *)
Lemma for_append_prefix {A B} (body body' : list B -> A -> result B)
    (pre : list B) (items : list A) :
  (forall acc x, body (pre ++ acc) x = body' acc x) ->
  forall acc,
    for_append body items (pre ++ acc)
    = (ys ← for_append body' items acc; Ok (pre ++ ys)).
Proof.
  intros Hbody. induction items as [|x items IH]; intros acc; simpl.
  - reflexivity.
  - rewrite Hbody. destruct (body' acc x) as [y|e]; simpl; [|reflexivity].
    rewrite <- app_assoc. apply IH.
Qed.

Lemma count_flagged_app (l1 l2 : list BatchItem.t) :
  count_flagged (l1 ++ l2) = count_flagged l1 + count_flagged l2.
Proof.
  rewrite !count_flagged_length. unfold flagged.
  rewrite List.filter_app, length_app. lia.
Qed.

(** X13. With a model loaded, a batch returns exactly when every one of its
    requests can be vectorized and scored. *)
Theorem batch_succeeds_iff (st : State) (m : Model) (clock : nat -> string)
    (requests : list ReturnRequest) :
  model st = Some m ->
  (is_ok (batch_score_return_requests st clock requests) = true
   <-> forall request, request ∈ requests ->
                       is_ok (item_score st m request) = true).
Proof.
  intros Hm. split.
  - intros H request Hin.
    destruct (batch_score_return_requests st clock requests) as [out|] eqn:Hb;
      [|discriminate].
    apply batch_score_Ok in Hb as (m' & Hm' & _ & _ & _ & Hitems).
    rewrite Hm in Hm'. injection Hm' as <-.
    apply list_elem_of_lookup_1 in Hin as (i & Hi).
    destruct (Hitems i request Hi) as (s & -> & _). reflexivity.
  - intros Hall. unfold batch_score_return_requests. rewrite Hm.
    destruct (for_append_total (batch_item st m clock) requests)
      with (acc := @nil BatchItem.t) as (out & ->); [|reflexivity].
    intros acc request Hin. rewrite batch_item_score.
    specialize (Hall request Hin).
    destruct (item_score st m request); [simpl; eauto | discriminate].
Qed.

(** X14. Batches compose: when a first batch returns, and a second batch
    returns on a clock that starts where the first ended, the batch of the
    first requests followed by the second returns the first results followed
    by the second, with the counters added. *)
Theorem batch_of_concatenation (st : State) (clock : nat -> string)
    (requests1 requests2 : list ReturnRequest) (out1 out2 : BatchResponse.t) :
  batch_score_return_requests st clock requests1 = Ok out1 ->
  batch_score_return_requests st
    (fun i => clock (length requests1 + i)%nat) requests2 = Ok out2 ->
  batch_score_return_requests st clock (requests1 ++ requests2)
  = Ok {| BatchResponse.results :=
            BatchResponse.results out1 ++ BatchResponse.results out2;
          BatchResponse.total_processed :=
            BatchResponse.total_processed out1
            + BatchResponse.total_processed out2;
          BatchResponse.flagged_count :=
            BatchResponse.flagged_count out1
            + BatchResponse.flagged_count out2 |}.
Proof.
  unfold batch_score_return_requests.
  destruct (model st) as [m|]; [|discriminate].
  intros H1 H2. apply try_except_Ok in H1, H2.
  apply bind_Ok in H1 as (results1 & Hloop1 & H1). injection H1 as <-.
  apply bind_Ok in H2 as (results2 & Hloop2 & H2). injection H2 as <-.
  simpl. rewrite for_append_app, Hloop1. simpl.
  assert (Hlen : length results1 = length requests1).
  { apply for_append_Ok in Hloop1 as (ys & -> & Hlen & _). exact Hlen. }
  rewrite <- (app_nil_r results1) at 1.
  rewrite (for_append_prefix (batch_item st m clock)
             (batch_item st m (fun i => clock (length requests1 + i)%nat))
             results1 requests2).
  - rewrite Hloop2. simpl. now rewrite length_app, count_flagged_app.
  - intros acc x. rewrite !batch_item_score, length_app, Hlen. reflexivity.
Qed.

(** X15. The counters of a batch are consistent: [flagged_count] is never
    negative and never more than [total_processed], and it is zero exactly
    when no result is flagged. *)
Theorem batch_flagged_within_total (st : State) (clock : nat -> string)
    (requests : list ReturnRequest) (out : BatchResponse.t) :
  batch_score_return_requests st clock requests = Ok out ->
  0 <= BatchResponse.flagged_count out
  <= Z.of_nat (BatchResponse.total_processed out) /\
  (BatchResponse.flagged_count out = 0
   <-> Forall (fun r => BatchItem.is_flagged r = false)
         (BatchResponse.results out)).
Proof.
  intros H. apply batch_score_Ok in H as (m & _ & -> & -> & _ & _).
  rewrite count_flagged_length. unfold flagged.
  generalize (BatchResponse.results out). intros results.
  split.
  - pose proof (List.filter_length_le BatchItem.is_flagged results). lia.
  - induction results as [|r results IH]; simpl.
    + split; [constructor | reflexivity].
    + destruct (BatchItem.is_flagged r) eqn:Hr; simpl.
      * split; [lia | intros HF; apply Forall_cons_1 in HF as [HF _];
                      congruence].
      * split; [intros H0; constructor; [exact Hr | now apply IH] |
                intros HF; apply Forall_cons_1 in HF as [_ HF]; now apply IH].
Qed.

(** The metrics of the sample state: six features counted and ranked. *)
Example metrics_sample :
  get_model_metrics (sample_state 0.75)
  = Ok {| MetricsResponse.model_info :=
            {| ModelInfo.model_type := "LightGBM";
               ModelInfo.training_date := VStr "2024-01-01";
               ModelInfo.feature_count := 6;
               ModelInfo.random_state := VStr "unknown" |};
          MetricsResponse.feature_importance :=
            [("user_age_days", 4%float); ("return_rate", 4%float);
             ("device_count", 3%float); ("account_tier", 2%float);
             ("order_value", 1%float); ("is_weekend", 0.5%float)] |}.
Proof. vm_compute. reflexivity. Qed.

(** ** The demo client *)

Lemma randint_ge (a b n lo : Z) :
  Demo.randint a b n = true -> lo <= a -> ge_int lo n = true.
Proof.
  unfold Demo.randint, ge_int. intros H Hlo.
  apply andb_prop in H as [H _]. apply Z.leb_le in H. apply Z.leb_le. lia.
Qed.

Lemma randint_le (a b n hi : Z) :
  Demo.randint a b n = true -> b <= hi -> le_int hi n = true.
Proof.
  unfold Demo.randint, le_int. intros H Hhi.
  apply andb_prop in H as [_ H]. apply Z.leb_le in H. apply Z.leb_le. lia.
Qed.

Lemma choice01_ge (n : Z) : Demo.choice01 n = true -> ge_int 0 n = true.
Proof.
  unfold Demo.choice01, ge_int. intros H. apply Z.leb_le.
  apply orb_prop in H as [H|H]; apply Z.eqb_eq in H; lia.
Qed.

Lemma choice01_le (n : Z) : Demo.choice01 n = true -> le_int 1 n = true.
Proof.
  unfold Demo.choice01, le_int. intros H. apply Z.leb_le.
  apply orb_prop in H as [H|H]; apply Z.eqb_eq in H; lia.
Qed.

Lemma uniform_ge (a b x lo : float) :
  Demo.uniform a b x = true -> (lo <=? a)%float = true ->
  ge_float lo x = true.
Proof.
  unfold Demo.uniform, ge_float. intros H Hlo.
  apply andb_prop in H as [H _]. now apply leb_trans with a.
Qed.

Lemma uniform_le (a b x hi : float) :
  Demo.uniform a b x = true -> (b <=? hi)%float = true ->
  le_float hi x = true.
Proof.
  unfold Demo.uniform, le_float. intros H Hhi.
  apply andb_prop in H as [_ H]. now apply leb_trans with b.
Qed.

Ltac field_in_range :=
  first
    [ eapply randint_ge; [eassumption | lia]
    | eapply randint_le; [eassumption | lia]
    | eapply choice01_ge; eassumption
    | eapply choice01_le; eassumption
    | eapply uniform_ge; [eassumption | reflexivity]
    | eapply uniform_le; [eassumption | reflexivity] ].

(** X17. Every request that the demo generates is acceptable to the
    service: whatever is drawn, the generated dictionary is the dictionary
    of a request that meets all the field constraints, with identifiers
    made of the drawn numbers. *)
Theorem generated_request_is_valid (d : Demo.Draws) :
  Demo.drawn d = true ->
  exists request : ReturnRequest,
    Demo.generate_sample_request d = dict request /\
    request_valid request = true /\
    user_id request = "user_" +:+ pretty (Demo.user_id d) /\
    order_id request = "order_" +:+ pretty (Demo.order_id d).
Proof.
  intros H. unfold Demo.drawn in H.
  repeat match type of H with
         | (_ && _) = true => let H' := fresh "Hd" in
                              apply andb_prop in H as [H H']
         end.
  exists
    {| user_id := "user_" +:+ pretty (Demo.user_id d);
       order_id := "order_" +:+ pretty (Demo.order_id d);
       user_age_days := Demo.user_age_days d;
       num_orders := Demo.num_orders d;
       avg_order_value := Demo.avg_order_value d;
       device_count := Demo.device_count d;
       return_rate := Demo.return_rate d;
       recent_returns_30d := Demo.recent_returns_30d d;
       recent_returns_90d := Demo.recent_returns_90d d;
       recent_returns_365d := Demo.recent_returns_365d d;
       order_value := Demo.order_value d;
       item_count := Demo.item_count d;
       product_risk_score := Demo.product_risk_score d;
       shipping_method_express := Demo.shipping_method_express d;
       billing_shipping_mismatch := Demo.billing_shipping_mismatch d;
       days_to_return := Demo.days_to_return d;
       return_reason_suspicious := Demo.return_reason_suspicious d;
       refund_type_cash := Demo.refund_type_cash d;
       refund_type_store_credit := Demo.refund_type_store_credit d;
       is_high_value := Demo.is_high_value d;
       email_domain_risk := Demo.email_domain_risk d;
       hour_of_day := Demo.hour_of_day d;
       is_weekend := Demo.is_weekend d |}.
  split; [reflexivity|]. split; [|split; reflexivity].
  unfold request_valid. cbn [user_age_days num_orders avg_order_value
    device_count return_rate recent_returns_30d recent_returns_90d
    recent_returns_365d order_value item_count product_risk_score
    shipping_method_express billing_shipping_mismatch days_to_return
    return_reason_suspicious refund_type_cash refund_type_store_credit
    is_high_value email_domain_risk hour_of_day is_weekend].
  repeat (apply andb_true_intro; split); field_in_range.
Qed.

Section DemoProperties.
Variable float_of_str : string -> option float.
Variable percentile : list float -> Z -> float.

Local Abbreviation score := (score_return_request float_of_str percentile).

(** X18. The risk level that the demo prints and the flag of the service
    agree except at the threshold: a flagged score is never printed as low
    risk, a score printed as high risk is always flagged, and a score printed
    as medium risk is not flagged only when it equals 0.5. *)
Theorem printed_level_and_flag (st : State) (now : string)
    (request : ReturnRequest) (resp : FraudScoreResponse.t) :
  score st now request = Ok resp ->
  (FraudScoreResponse.is_flagged resp = true ->
   Demo.risk_level (FraudScoreResponse.risk_score resp) <> "🟢 LOW RISK") /\
  (Demo.risk_level (FraudScoreResponse.risk_score resp) = "🔴 HIGH RISK" ->
   FraudScoreResponse.is_flagged resp = true) /\
  (Demo.risk_level (FraudScoreResponse.risk_score resp) = "🟡 MEDIUM RISK" ->
   FraudScoreResponse.is_flagged resp = false ->
   (0.5 =? FraudScoreResponse.risk_score resp)%float = true).
Proof.
  intros H.
  apply score_return_request_Ok in H
    as (m & names & s & rest & factors & _ & _ & _ & _ & _ & ->).
  simpl. unfold Demo.risk_level.
  destruct (0x1.999999999999ap-1 <=? s)%float eqn:Hhigh;
    destruct (0.5 <=? s)%float eqn:Hmid;
    destruct (0.5 <? s)%float eqn:Hflag;
    repeat split; try discriminate; try reflexivity; intros.
  - assert (Hlt : (0.5 <? s)%float = true)
      by (apply (ltb_leb_trans _ 0x1.999999999999ap-1); [reflexivity | exact Hhigh]).
    congruence.
  - assert (Hlt : (0.5 <? s)%float = true)
      by (apply (ltb_leb_trans _ 0x1.999999999999ap-1); [reflexivity | exact Hhigh]).
    congruence.
  - now apply leb_not_ltb_eqb.
  - apply ltb_leb in Hflag. congruence.
Qed.

End DemoProperties.

(** ** The further properties at the sample data *)

Lemma healthy_without_scoring_witness :
  (@None (result MetadataDocument) = None \/
   (exists e, @None (result MetadataDocument) = Some (Raise e)) \/
   (exists document, @None (result MetadataDocument) = Some (Ok document) /\
                     feature_names_entry document = None)) /\
  HealthResponse.status
    (health_check (lifespan (Some (Ok (stub_model 0.75))) None)
       "2024-06-01T12:00:00") = "healthy" /\
  HealthResponse.model_loaded
    (health_check (lifespan (Some (Ok (stub_model 0.75))) None)
       "2024-06-01T12:00:00") = true /\
  score_return_request no_float_of_str linear_percentile
    (lifespan (Some (Ok (stub_model 0.75))) None) "2024-06-01T12:00:00"
    sample_request
  = Raise (HTTPException 500 (FString "Scoring error: " model_not_loaded)) /\
  get_feature_importance (lifespan (Some (Ok (stub_model 0.75))) None)
  = Raise (HTTPException 500 (Text "Model or feature data not loaded")).
Proof.
  split; [left; reflexivity|].
  apply (healthy_without_scoring no_float_of_str linear_percentile
           (stub_model 0.75) None "2024-06-01T12:00:00" sample_request).
  left. reflexivity.
Defined.


Lemma confidence_in_unit_interval_witness :
  exists resp,
    score_return_request no_float_of_str linear_percentile (sample_state 1.5)
      "2024-06-01T12:00:00" sample_request = Ok resp /\
    (0 <=? FraudScoreResponse.confidence resp)%float = true /\
    (FraudScoreResponse.confidence resp <=? 1)%float = true.
Proof.
  eexists. split; [vm_compute; reflexivity|].
  apply (confidence_in_unit_interval no_float_of_str linear_percentile
           (sample_state 1.5) "2024-06-01T12:00:00" sample_request).
  vm_compute. reflexivity.
Defined.

Lemma sample_requests_agree (name : string) :
  name ∈ sample_names ->
  dict sample_request !! name = dict sample_request_renamed !! name.
Proof.
  intros Hin. unfold sample_names in Hin.
  repeat (apply elem_of_cons in Hin as [->|Hin]; [vm_compute; reflexivity|]).
  inversion Hin.
Qed.

Lemma score_depends_on_named_features_witness :
  feature_names (sample_state 0.75) = Some sample_names /\
  score_return_request no_float_of_str linear_percentile (sample_state 0.75)
    "2024-06-01T12:00:00" sample_request
  = score_return_request no_float_of_str linear_percentile (sample_state 0.75)
      "2024-06-01T12:00:00" sample_request_renamed.
Proof.
  split; [reflexivity|].
  apply (score_depends_on_named_features no_float_of_str linear_percentile
           (sample_state 0.75) sample_names "2024-06-01T12:00:00"
           sample_request sample_request_renamed).
  - reflexivity.
  - apply sample_requests_agree.
Defined.

Lemma explainer_negative_top_n_drops_witness :
  -2 < 0 /\
  Forall (numeric no_float_of_str) sample_features /\
  exists factors : list RiskFactor.t,
    get_top_risk_factors no_float_of_str linear_percentile sample_features
      (Some sample_names) (Some sample_importance) (-2) = Ok factors /\
    length factors
    = Z.to_nat
        (Z.of_nat (Nat.min (length sample_names)
                     (Nat.min (length sample_features)
                        (length sample_importance)))
         + -2) /\
    map factor_name_and_importance factors
    = map name_and_importance
        (firstn (length factors)
           (sort_desc (fun x => x.2)
              (zip3 sample_names sample_features sample_importance))).
Proof.
  split; [lia|]. split; [apply sample_features_numeric|].
  apply (explainer_negative_top_n_drops no_float_of_str linear_percentile
           sample_features sample_names sample_importance (-2)).
  - lia.
  - apply sample_features_numeric.
Defined.

Lemma score_lists_at_most_five_witness :
  exists resp,
    score_return_request no_float_of_str linear_percentile (sample_state 0.75)
      "2024-06-01T12:00:00" sample_request = Ok resp /\
    (length (FraudScoreResponse.top_risk_factors resp) <= 5)%nat /\
    Demo.listed_risk_factors resp = FraudScoreResponse.top_risk_factors resp.
Proof.
  eexists. split; [vm_compute; reflexivity|].
  apply (score_lists_at_most_five no_float_of_str linear_percentile
           (sample_state 0.75) "2024-06-01T12:00:00" sample_request).
  vm_compute. reflexivity.
Defined.

Lemma explanation_is_ranking_head_witness :
  exists resp ranking,
    score_return_request no_float_of_str linear_percentile (sample_state 0.75)
      "2024-06-01T12:00:00" sample_request = Ok resp /\
    get_feature_importance (sample_state 0.75) = Ok ranking /\
    map factor_name_and_importance (FraudScoreResponse.top_risk_factors resp)
    = firstn 5 (FeatureImportanceResponse.feature_importance ranking).
Proof.
  eexists. eexists. split; [vm_compute; reflexivity|].
  split; [vm_compute; reflexivity|].
  apply (explanation_is_ranking_head no_float_of_str linear_percentile
           (sample_state 0.75) "2024-06-01T12:00:00" sample_request);
    vm_compute; reflexivity.
Defined.

Lemma ranking_is_rearrangement_witness :
  exists ranking,
    get_feature_importance (sample_state 0.75) = Ok ranking /\
    Permutation (FeatureImportanceResponse.feature_importance ranking)
      (zip sample_names sample_importance) /\
    length (FeatureImportanceResponse.feature_importance ranking)
    = Nat.min (length sample_names) (length sample_importance) /\
    FeatureImportanceResponse.total_features ranking = length sample_names /\
    (length (FeatureImportanceResponse.feature_importance ranking)
     <= FeatureImportanceResponse.total_features ranking)%nat.
Proof.
  eexists. split; [vm_compute; reflexivity|].
  apply (ranking_is_rearrangement (sample_state 0.75) sample_names
           sample_importance); vm_compute; reflexivity.
Defined.

Lemma ranking_is_descending_witness :
  Forall (fun x => is_nan x = false) sample_importance /\
  exists ranking,
    get_feature_importance (sample_state 0.75) = Ok ranking /\
    forall (k k' : nat) (earlier later : string * float),
      (k < k')%nat ->
      FeatureImportanceResponse.feature_importance ranking !! k
      = Some earlier ->
      FeatureImportanceResponse.feature_importance ranking !! k'
      = Some later ->
      (later.2 <=? earlier.2)%float = true.
Proof.
  split; [apply sample_importance_no_nan|].
  eexists. split; [vm_compute; reflexivity|].
  apply (ranking_is_descending (sample_state 0.75) sample_importance).
  - reflexivity.
  - apply sample_importance_no_nan.
  - vm_compute. reflexivity.
Defined.

Lemma metrics_agree_with_feature_importance_witness :
  exists ranking,
    get_feature_importance (sample_state 0.75) = Ok ranking /\
    exists metrics,
      get_model_metrics (sample_state 0.75) = Ok metrics /\
      MetricsResponse.feature_importance metrics
      = FeatureImportanceResponse.feature_importance ranking /\
      ModelInfo.feature_count (MetricsResponse.model_info metrics)
      = FeatureImportanceResponse.total_features ranking.
Proof.
  eexists. split; [vm_compute; reflexivity|].
  apply (metrics_agree_with_feature_importance (sample_state 0.75)).
  vm_compute. reflexivity.
Defined.

Lemma batch_succeeds_iff_witness :
  model picky_state = Some picky_model /\
  (is_ok (batch_score_return_requests picky_state sample_clock sample_batch)
   = true
   <-> forall request, request ∈ sample_batch ->
                       is_ok (item_score picky_state picky_model request)
                       = true).
Proof.
  split; [reflexivity|].
  apply (batch_succeeds_iff picky_state picky_model sample_clock sample_batch).
  reflexivity.
Defined.

Lemma batch_of_concatenation_witness :
  exists out1 out2,
    batch_score_return_requests (sample_state 0.75) sample_clock
      [sample_request] = Ok out1 /\
    batch_score_return_requests (sample_state 0.75)
      (fun i => sample_clock (length [sample_request] + i)%nat)
      [sample_request_2; sample_request] = Ok out2 /\
    batch_score_return_requests (sample_state 0.75) sample_clock
      ([sample_request] ++ [sample_request_2; sample_request])
    = Ok {| BatchResponse.results :=
              BatchResponse.results out1 ++ BatchResponse.results out2;
            BatchResponse.total_processed :=
              BatchResponse.total_processed out1
              + BatchResponse.total_processed out2;
            BatchResponse.flagged_count :=
              BatchResponse.flagged_count out1
              + BatchResponse.flagged_count out2 |}.
Proof.
  eexists. eexists. split; [vm_compute; reflexivity|].
  split; [vm_compute; reflexivity|].
  apply (batch_of_concatenation (sample_state 0.75) sample_clock
           [sample_request] [sample_request_2; sample_request]);
    vm_compute; reflexivity.
Defined.

Lemma batch_flagged_within_total_witness :
  exists out,
    batch_score_return_requests (sample_state 0.75) sample_clock sample_batch
    = Ok out /\
    0 <= BatchResponse.flagged_count out
    <= Z.of_nat (BatchResponse.total_processed out) /\
    (BatchResponse.flagged_count out = 0
     <-> Forall (fun r => BatchItem.is_flagged r = false)
           (BatchResponse.results out)).
Proof.
  eexists. split; [vm_compute; reflexivity|].
  apply (batch_flagged_within_total (sample_state 0.75) sample_clock
           sample_batch).
  vm_compute. reflexivity.
Defined.

Lemma generated_request_is_valid_witness :
  Demo.drawn sample_draws = true /\
  exists request : ReturnRequest,
    Demo.generate_sample_request sample_draws = dict request /\
    request_valid request = true /\
    user_id request = "user_" +:+ pretty (Demo.user_id sample_draws) /\
    order_id request = "order_" +:+ pretty (Demo.order_id sample_draws).
Proof.
  split; [vm_compute; reflexivity|].
  apply (generated_request_is_valid sample_draws).
  vm_compute. reflexivity.
Defined.

Lemma printed_level_and_flag_witness :
  exists resp,
    score_return_request no_float_of_str linear_percentile (sample_state 0.5)
      "2024-06-01T12:00:00" sample_request = Ok resp /\
    (FraudScoreResponse.is_flagged resp = true ->
     Demo.risk_level (FraudScoreResponse.risk_score resp) <> "🟢 LOW RISK") /\
    (Demo.risk_level (FraudScoreResponse.risk_score resp) = "🔴 HIGH RISK" ->
     FraudScoreResponse.is_flagged resp = true) /\
    (Demo.risk_level (FraudScoreResponse.risk_score resp) = "🟡 MEDIUM RISK" ->
     FraudScoreResponse.is_flagged resp = false ->
     (0.5 =? FraudScoreResponse.risk_score resp)%float = true).
Proof.
  eexists. split; [vm_compute; reflexivity|].
  apply (printed_level_and_flag no_float_of_str linear_percentile
           (sample_state 0.5) "2024-06-01T12:00:00" sample_request).
  vm_compute. reflexivity.
Defined.

(** At the threshold the demo prints a medium risk for a score that the
    service does not flag. *)
Example threshold_printed_medium :
  exists resp,
    score_return_request no_float_of_str linear_percentile (sample_state 0.5)
      "2024-06-01T12:00:00" sample_request = Ok resp /\
    FraudScoreResponse.is_flagged resp = false /\
    Demo.risk_level (FraudScoreResponse.risk_score resp) = "🟡 MEDIUM RISK".
Proof. eexists. split; [vm_compute; reflexivity|]. split; reflexivity. Qed.
